(** * transforms.api._dataset : Input, Output and the marking definitions

    A shallow embedding of [libs/transforms/src/transforms/api/_dataset.py].

    The module is glue between user code and three objects hanging off the
    global [TRANSFORMS_FOUNDRY_CONTEXT]: the configuration, the REST client
    and the cached client with its dataframe cache.  None of the three is
    defined in this file of the repository, so they are taken as an
    interface (records of functions over an abstract outside world [W]);
    everything the Python file itself does is written out.

    Effects are modelled by a state-and-exception monad.  The state carries
    the configuration, the outside world, the dataframe cache (a Python
    mapping, kept as an insertion-ordered association list) and a
    chronological trace of what the code did to its surroundings: log
    records, warnings and every call made on a collaborator.  A call on
    the REST client may change the world, a call on the cached client the
    world and the cache; the configuration changes only between calls on
    an Input, never during one.  Strings are ASCII, and the floats of the
    module (a size in megabytes and that size rounded) are the rational
    numbers the doubles are. *)

From Stdlib Require Import ZArith QArith Qround Qabs List String Ascii Bool Lia.
From Stdlib Require Import DecimalString.
Import ListNotations.

Local Open Scope string_scope.
Local Open Scope list_scope.

(** ** Python values, for the helper [_as_list]

    [_as_list] is typed [list[Any] | Any | None]: it inspects the truth
    value of its argument and whether it is a list.  The universe below has
    the shapes that matter for those two tests. *)

#[local] Set Warnings "-register-all".

Inductive PyVal : Type :=
| PyNone
| PyBool (b : bool)
| PyInt (z : Z)
| PyStr (s : string)
| PyList (l : list PyVal).

(** [bool(x)] as Python computes it. *)
Definition truthy (x : PyVal) : bool :=
  match x with
  | PyNone => false
  | PyBool b => b
  | PyInt z => negb (Z.eqb z 0)
  | PyStr s => negb (String.eqb s "")
  | PyList l => match l with [] => false | _ :: _ => true end
  end.

(** [isinstance(x, list)] *)
Definition isinstance_list (x : PyVal) : bool :=
  match x with
  | PyList _ => true
  | _ => false
  end.

(** def _as_list(list_or_single_item) *)
Definition _as_list (list_or_single_item : PyVal) : list PyVal :=
  if negb (truthy list_or_single_item) then []
  else
    match list_or_single_item with
    | PyList l => l
    | _ => [list_or_single_item]
    end.

(** class UnmarkingDef, with its subclasses Markings and OrgMarkings, which
    add nothing to it. *)
Record UnmarkingDef : Type := mkUnmarkingDef {
  marking_ids : list PyVal;
  branches : list PyVal
}.

Definition UnmarkingDef__init__ (marking_ids on_branches : PyVal) : UnmarkingDef :=
  {| marking_ids := _as_list marking_ids;
     branches := _as_list on_branches |}.

Definition Markings__init__ := UnmarkingDef__init__.
Definition OrgMarkings__init__ := UnmarkingDef__init__.

(** class Output: holds the alias only. *)
Record Output : Type := mkOutput { alias : option string }.

Definition Output__init__ (alias : option string) : Output := {| alias := alias |}.

(** ** api_types: the dataset identity

    A dataset identity is a dict with the keys [dataset_path],
    [dataset_rid], [last_transaction_rid] and [last_transaction]; the last
    two are [None] for a dataset nothing was ever written to.  Of
    [last_transaction] the module reads [rid] and [transaction], and of the
    transaction [metadata.totalFileSize]; [record_view] stands for what
    [is_dataset_a_view] may look at. *)

Record Transaction : Type := mkTransaction {
  record_view : bool;
  metadata_totalFileSize : Z
}.

Record SecuredTransaction : Type := mkSecuredTransaction {
  rid : string;
  transaction : Transaction
}.

Record DatasetIdentity : Type := mkDatasetIdentity {
  dataset_path : string;
  dataset_rid : string;
  last_transaction_rid : option string;
  last_transaction : option SecuredTransaction
}.

Definition Transaction_eq_dec (x y : Transaction) : {x = y} + {x <> y}.
Proof. decide equality; [apply Z.eq_dec | apply bool_dec]. Defined.

Definition SecuredTransaction_eq_dec (x y : SecuredTransaction) : {x = y} + {x <> y}.
Proof. decide equality; [apply Transaction_eq_dec | apply string_dec]. Defined.

Definition option_eq_dec {A : Type} (dec : forall a b : A, {a = b} + {a <> b})
  (x y : option A) : {x = y} + {x <> y}.
Proof. decide equality. Defined.

Definition DatasetIdentity_eq_dec (x y : DatasetIdentity) : {x = y} + {x <> y}.
Proof.
  decide equality;
    [ apply (option_eq_dec SecuredTransaction_eq_dec)
    | apply (option_eq_dec string_dec)
    | apply string_dec
    | apply string_dec ].
Defined.

(** [a == b] on two identities (dict equality). *)
Definition identity_eqb (a b : DatasetIdentity) : bool :=
  if DatasetIdentity_eq_dec a b then true else false.

(** ** Exceptions and configuration

    The three errors of [foundry_dev_tools.errors.dataset] the module
    names, the two built-in ones a subscript can raise, and any other
    exception a collaborator may raise. *)

Inductive Exception : Type :=
| BranchNotFoundError
| DatasetHasNoSchemaError
| DatasetHasNoTransactionsError (dataset : string)
| KeyError
| TypeError
| OtherError (name : string).

Inductive Result (A : Type) : Type :=
| Ok (a : A)
| Raise (e : Exception).
Arguments Ok {A} a.
Arguments Raise {A} e.

(** The attributes of [TRANSFORMS_FOUNDRY_CONTEXT.config] this module reads. *)
Record Config : Type := mkConfig {
  transforms_freeze_cache : bool;
  transforms_sql_sample_select_random : bool;
  transforms_sql_sample_row_limit : Z;
  transforms_force_full_dataset_download : bool;
  transforms_sql_dataset_size_threshold : Q
}.

Inductive SQLReturnType : Type := PANDAS | SPARK | ARROW | RAW.

(** ** The trace *)

(** The records handed to [LOGGER.debug], by call site. *)
Inductive LogRecord : Type :=
| LogInputInstantiated (caller_filename : string)
| LogFallingBackToMaster (alias branch : string)
| LogNoSchema (dataset_rid dataset_path branch : string)
| LogReturningFromCache (dataset_identity : DatasetIdentity) (branch : string)
| LogExecutingQuery (query branch : string)
| LogCachingData (dataset_identity : DatasetIdentity) (branch : string)
| LogDatasetSize (size_in_mega_bytes_rounded : Q).

(** The two messages handed to [warnings.warn]; the fields are the values
    interpolated into the message. *)
Inductive Warning : Type :=
| WarnRetrievingSubset
    (row_limit : Z) (dataset_name dataset_rid : string)
    (size_in_mega_bytes_rounded threshold : Q)
| WarnNoGitBranch.

(** Calls on [TRANSFORMS_FOUNDRY_CONTEXT.foundry_rest_client]. *)
Inductive RestCall : Type :=
| GetDatasetIdentity (alias branch : string)
| GetDatasetSchema (dataset_rid : string) (transaction_rid : option string) (branch : string)
| FoundryStats (dataset_rid transaction_rid : string)
| QueryFoundrySql (query branch : string) (return_type : SQLReturnType).

(** Calls on [TRANSFORMS_FOUNDRY_CONTEXT.cached_foundry_client] and on its
    [cache]. *)
Inductive CachedCall : Type :=
| LoadDataset (dataset_rid branch : string)
| FetchDataset (dataset_identity : DatasetIdentity) (branch : string)
| CacheKeys
| CacheGetItem (key : DatasetIdentity)
| CacheSetItem (key : DatasetIdentity)
| CacheGetDatasetIdentityNotBranchAware (alias : string)
| CacheDatasetHasSchema (dataset_identity : DatasetIdentity)
| CacheGetPathToLocalDataset (dataset_identity : DatasetIdentity).

Inductive Event : Type :=
| Debug (r : LogRecord)
| Warn (w : Warning)
| Rest (c : RestCall)
| Cached (c : CachedCall).

Definition is_rest (e : Event) : bool :=
  match e with Rest _ => true | _ => false end.

Definition is_warning (e : Event) : bool :=
  match e with Warn _ => true | _ => false end.

Definition is_load_dataset (e : Event) : bool :=
  match e with Cached (LoadDataset _ _) => true | _ => false end.

Definition is_query (e : Event) : bool :=
  match e with Rest (QueryFoundrySql _ _ _) => true | _ => false end.

Definition is_schema_lookup (e : Event) : bool :=
  match e with
  | Rest (GetDatasetSchema _ _ _) => true
  | Cached (CacheDatasetHasSchema _) => true
  | _ => false
  end.

Definition is_cache_store (e : Event) : bool :=
  match e with Cached (CacheSetItem _) => true | _ => false end.

Definition is_identity_lookup (e : Event) : bool :=
  match e with
  | Rest (GetDatasetIdentity _ _) => true
  | Cached (CacheGetDatasetIdentityNotBranchAware _) => true
  | _ => false
  end.

(** Anything that brings data (a dataframe, files, statistics) in. *)
Definition is_data_retrieval (e : Event) : bool :=
  match e with
  | Rest (QueryFoundrySql _ _ _) => true
  | Rest (FoundryStats _ _) => true
  | Cached (LoadDataset _ _) => true
  | Cached (FetchDataset _ _) => true
  | Cached (CacheGetItem _) => true
  | Cached (CacheGetPathToLocalDataset _) => true
  | _ => false
  end.

Definition is_no_schema_record (e : Event) : bool :=
  match e with Debug (LogNoSchema _ _ _) => true | _ => false end.

(** ** Pure helpers standing for Python built-ins *)

(** [s.split(sep)] for a one-character separator: never the empty list. *)
Fixpoint split_on (sep : ascii) (s : string) : list string :=
  match s with
  | EmptyString => [""]
  | String c s' =>
      if Ascii.eqb c sep then "" :: split_on sep s'
      else
        match split_on sep s' with
        | [] => [String c ""]
        | h :: t => String c h :: t
        end
  end.

(** [l[-1]] on a list of strings ([split] never returns the empty list). *)
Definition last_item (l : list string) : string := List.last l "".

(** [c.isspace()] on the ASCII range. *)
Definition isspace (c : ascii) : bool :=
  let n := nat_of_ascii c in
  ((9 <=? n) && (n <=? 13) || (28 <=? n) && (n <=? 32))%nat.

Fixpoint lstrip (s : string) : string :=
  match s with
  | EmptyString => ""
  | String c s' => if isspace c then lstrip s' else s
  end.

Fixpoint rstrip (s : string) : string :=
  match s with
  | EmptyString => ""
  | String c s' =>
      match rstrip s' with
      | EmptyString => if isspace c then "" else String c ""
      | r => String c r
      end
  end.

(** [s.strip()] *)
Definition strip (s : string) : string := rstrip (lstrip s).

(** [s.startswith(p)] *)
Definition startswith (s p : string) : bool := String.prefix p s.

(** [s[n:]] *)
Definition slice_from (n : nat) (s : string) : string :=
  String.substring n (String.length s - n) s.

(** [str(n)] for an int, as an f-string interpolates it. *)
Definition str_of_int (n : Z) : string := NilZero.string_of_int (Z.to_int n).

(** The text of the sampling query as the specification describes it: the
    select, then the random ordering when asked for, then the row limit.
    (What the code builds is in [_read_spark_df_with_sql_query].) *)
Definition sampled_sql (dataset_path : string) (select_random : bool) (row_limit : Z)
  : string :=
  ("SELECT * FROM `" ++ dataset_path ++ "`"
   ++ (if select_random then " ORDER BY RAND()" else "")
   ++ " LIMIT " ++ str_of_int row_limit)%string.

(** The double nearest to an int, as the integer it is worth: the int
    itself when it has at most 53 significant bits, and otherwise its 53
    leading bits rounded to nearest, ties to the even one (which may carry
    into a 54th bit), followed by zeros. *)
Definition nearest_double (n : Z) : Z :=
  let a := Z.abs n in
  let k := (Z.log2 a + 1 - 53)%Z in
  if (k <=? 0)%Z then n
  else
    let q := Z.shiftr a k in
    let r := (a - Z.shiftl q k)%Z in
    let half := Z.shiftl 1 (k - 1) in
    let q' :=
      if (r <? half)%Z then q
      else if (half <? r)%Z then (q + 1)%Z
      else if Z.even q then q
      else (q + 1)%Z in
    (Z.sgn n * Z.shiftl q' k)%Z.

(** [size_in_bytes / 1024] raises OverflowError when the quotient, rounded,
    is beyond the largest double, that is from 2^1024 on. *)
Definition too_large_for_float (size_in_bytes : Z) : bool :=
  (1034 <=? Z.log2 (Z.abs (nearest_double size_in_bytes)))%Z.

(** [size_in_bytes / 1024 / 1024] on an int.  Python's true division of
    ints yields the double nearest to the quotient; dividing by a power of
    two only moves the exponent, so the first quotient is the double
    nearest to the int, over 1024, and the second division is exact. *)
Definition mega_bytes (size_in_bytes : Z) : Q :=
  (inject_Z (nearest_double size_in_bytes) / 1024 / 1024)%Q.

(** Rounding to the nearest integer, ties to the even one. *)
Definition round_half_even (q : Q) : Z :=
  let f := Qfloor q in
  match ((q - inject_Z f) ?= 1 # 2)%Q with
  | Lt => f
  | Gt => (f + 1)%Z
  | Eq => if Z.even f then f else (f + 1)%Z
  end.

(** Powers of two, and the exponent of a positive rational: the [k] with
    [2^k <= a < 2^(k+1)]. *)
Definition Qpow2 (k : Z) : Q :=
  if (0 <=? k)%Z then inject_Z (2 ^ k) else (1 / inject_Z (2 ^ (- k)))%Q.

Definition Qlog2 (a : Q) : Z :=
  let k := (Z.log2 (Qnum a) - Z.log2 (Zpos (Qden a)))%Z in
  if Qle_bool (Qpow2 k) a then k else (k - 1)%Z.

(** The double nearest to a rational, as the rational it is worth: 53
    significant bits, rounded to nearest, ties to the even one.  (For
    values in the range of the normal doubles, where the decimals this is
    used on lie.) *)
Definition Qnearest_double (x : Q) : Q :=
  let a := Qabs x in
  if Qeq_bool a 0 then 0%Q
  else
    let e := (Qlog2 a - 52)%Z in
    Qred (inject_Z (Z.sgn (Qnum x) * round_half_even (a / Qpow2 e)) * Qpow2 e)%Q.

(** [round(x, ndigits=2)] on a double: the decimal with two digits after
    the point that is nearest to the double (ties to the even digit), and
    then the double nearest to that decimal. *)
Definition round_ndigits2 (x : Q) : Q :=
  Qnearest_double (inject_Z (round_half_even (x * 100)) / 100)%Q.

(** [a < b] on numbers. *)
Definition Qltb (a b : Q) : bool := negb (Qle_bool b a).

(** ** The monad and the collaborators *)

Section Dataset.

(** [pyspark.sql.DataFrame] objects, and whatever lies outside the process:
    the platform behind the REST client, the disk behind the cache, the
    checkout the calling file lives in. *)
Context {DF W : Type}.

(** [cached_foundry_client.cache], seen as the mapping the module uses it
    as: keys in insertion order, one entry per key. *)
Definition Cache : Type := list (DatasetIdentity * DF).

Definition cache_keys (c : Cache) : list DatasetIdentity := List.map fst c.

Fixpoint cache_lookup (k : DatasetIdentity) (c : Cache) : option DF :=
  match c with
  | [] => None
  | (k', v) :: c' => if identity_eqb k k' then Some v else cache_lookup k c'
  end.

Fixpoint cache_store (k : DatasetIdentity) (v : DF) (c : Cache) : Cache :=
  match c with
  | [] => [(k, v)]
  | (k', v') :: c' =>
      if identity_eqb k k' then (k', v) :: c' else (k', v') :: cache_store k v c'
  end.

(** [x in l] on a list of identities. *)
Definition contains (k : DatasetIdentity) (l : list DatasetIdentity) : bool :=
  List.existsb (identity_eqb k) l.

Record State : Type := mkState {
  config : Config;
  world : W;
  cache : Cache;
  trace : list Event
}.

Definition M (A : Type) : Type := State -> Result A * State.

Definition ret {A : Type} (a : A) : M A := fun s => (Ok a, s).

Definition bind {A B : Type} (m : M A) (k : A -> M B) : M B :=
  fun s =>
    match m s with
    | (Ok a, s') => k a s'
    | (Raise e, s') => (Raise e, s')
    end.

Definition raise {A : Type} (e : Exception) : M A := fun s => (Raise e, s).

(** [try: m  except <the exceptions h answers>: h e]; an exception [h] does
    not answer goes on up. *)
Definition try_except {A : Type} (m : M A) (h : Exception -> option (M A)) : M A :=
  fun s =>
    match m s with
    | (Ok a, s') => (Ok a, s')
    | (Raise e, s') =>
        match h e with
        | Some handler => handler s'
        | None => (Raise e, s')
        end
    end.

Definition emit (e : Event) : M unit :=
  fun s =>
    (Ok tt, {| config := config s; world := world s; cache := cache s;
               trace := trace s ++ [e] |}).

(** The state once some more events are on its trace. *)
Definition logged (evs : list Event) (s : State) : State :=
  {| config := config s; world := world s; cache := cache s;
     trace := trace s ++ evs |}.

Definition get_config : M Config := fun s => (Ok (config s), s).

Definition get_world : M W := fun s => (Ok (world s), s).

(** A look at the world that may fail and changes nothing. *)
Definition world_read {A : Type} (f : W -> Result A) : M A :=
  fun s => (f (world s), s).

(** [LOGGER.debug(...)] and [warnings.warn(...)] *)
Definition LOGGER_debug (r : LogRecord) : M unit := emit (Debug r).
Definition warnings_warn (w : Warning) : M unit := emit (Warn w).

(** A call on the REST client: it is recorded, then acts on the world. *)
Definition rest_call {A : Type} (c : RestCall) (f : W -> Result A * W) : M A :=
  fun s =>
    let (r, w') := f (world s) in
    (r, {| config := config s; world := w'; cache := cache s;
           trace := trace s ++ [Rest c] |}).

(** A call on the cached client: it is recorded, then acts on the world and
    on the cache. *)
Definition cached_call {A : Type} (c : CachedCall)
  (f : W -> Cache -> Result A * W * Cache) : M A :=
  fun s =>
    match f (world s) (cache s) with
    | (r, w', c') =>
        (r, {| config := config s; world := w'; cache := c';
               trace := trace s ++ [Cached c] |})
    end.

(** [list(cache.keys())], [cache[k]] and [cache[k] = v]. *)
Definition cache_keys_call : M (list DatasetIdentity) :=
  cached_call CacheKeys (fun w c => (Ok (cache_keys c), w, c)).

Definition cache_getitem (k : DatasetIdentity) : M DF :=
  cached_call (CacheGetItem k)
    (fun w c =>
       match cache_lookup k c with
       | Some v => (Ok v, w, c)
       | None => (Raise KeyError, w, c)
       end).

Definition cache_setitem (k : DatasetIdentity) (v : DF) : M unit :=
  cached_call (CacheSetItem k) (fun w c => (Ok tt, w, cache_store k v c)).

(** [TRANSFORMS_FOUNDRY_CONTEXT.foundry_rest_client].  [get_dataset_schema]
    returns a schema the module never looks at; [foundry_stats] stands for
    the call together with
    [int(foundry_stats["computedDatasetStats"]["sizeInBytes"])]. *)
Record FoundryRestClient : Type := mkFoundryRestClient {
  rest_get_dataset_identity : string -> string -> W -> Result DatasetIdentity * W;
  rest_get_dataset_schema : string -> option string -> string -> W -> Result unit * W;
  rest_foundry_stats : string -> string -> W -> Result Z * W;
  rest_query_foundry_sql : string -> string -> SQLReturnType -> W -> Result DF * W
}.

(** [TRANSFORMS_FOUNDRY_CONTEXT.cached_foundry_client] and the methods of
    its [cache] beyond the mapping ones. *)
Record CachedFoundryClient : Type := mkCachedFoundryClient {
  cfc_load_dataset : string -> string -> W -> Cache -> Result DF * W * Cache;
  cfc_fetch_dataset : DatasetIdentity -> string -> W -> Cache -> Result string * W * Cache;
  cache_get_dataset_identity_not_branch_aware :
    string -> W -> Cache -> Result DatasetIdentity * W * Cache;
  cache_dataset_has_schema : DatasetIdentity -> W -> Cache -> Result bool * W * Cache;
  cache_get_path_to_local_dataset : DatasetIdentity -> W -> Cache -> Result string * W * Cache
}.

(** Modelled from the spec: [cached_foundry_client.load_dataset] is code of
    the repository that lies outside this module; of a download the
    specification says that [dataframe()] fetches the data and "then caches
    it".  A client caches what it loads of a dataset when, each time
    [load_dataset] returns a dataframe for it, the mapping the call leaves
    holds that dataframe under the dataset's identity. *)
Definition load_dataset_caches (cfc : CachedFoundryClient)
  (dataset_identity : DatasetIdentity) : Prop :=
  forall branch w c spark_df w' c',
    cfc_load_dataset cfc (dataset_rid dataset_identity) branch w c
    = (Ok spark_df, w', c') ->
    cache_lookup dataset_identity c' = Some spark_df.

(** What else the module imports: [is_dataset_a_view] and
    [git_toplevel_dir] of [foundry_dev_tools.utils], and the file system as
    [_get_branch] reads it, each of which may raise: [Path.cwd()], and
    [read_if_file] for [is_file()] followed by [open()] and [read()], whose
    outcome is [None] for a path that is no file, the text of the file, or
    the exception one of the three calls raised (a file that cannot be
    opened or decoded). *)
Record FoundryContext : Type := mkFoundryContext {
  foundry_rest_client : FoundryRestClient;
  cached_foundry_client : CachedFoundryClient;
  is_dataset_a_view : Transaction -> bool;
  git_toplevel_dir : string -> W -> Result (option string);
  path_cwd : W -> Result string;
  read_if_file : string -> W -> Result (option string)
}.

Variable TRANSFORMS_FOUNDRY_CONTEXT : FoundryContext.

Notation "x <- m ;; k" := (bind m (fun x => k))
  (at level 100, m at next level, right associativity).
Notation "' p <- m ;; k" := (bind m (fun p => k))
  (at level 100, p pattern, m at next level, right associativity).
Notation "m ;;; k" := (bind m (fun _ => k))
  (at level 100, right associativity).

Let client := foundry_rest_client TRANSFORMS_FOUNDRY_CONTEXT.
Let cached_client := cached_foundry_client TRANSFORMS_FOUNDRY_CONTEXT.

(** ** class Input *)

Record Input : Type := mkInput {
  _spark_df : option DF;
  _is_spark_df_retrievable : bool;
  _dataset_identity : DatasetIdentity;
  branch : string
}.

(** def _get_branch(caller_filename) *)
Definition _get_branch (caller_filename : string) : M string :=
  git_dir <- world_read (git_toplevel_dir TRANSFORMS_FOUNDRY_CONTEXT caller_filename) ;;
  git_dir <-
    match git_dir with
    | Some d => ret d
    | None => world_read (path_cwd TRANSFORMS_FOUNDRY_CONTEXT)
    end ;;
  let head_file := (git_dir ++ "/.git/HEAD")%string in
  head <- world_read (read_if_file TRANSFORMS_FOUNDRY_CONTEXT head_file) ;;
  match head with
  | Some text =>
      let ref := strip text in
      if startswith ref "ref: refs/heads/" then ret (slice_from 16 ref)
      else ret "HEAD"
  | None =>
      warnings_warn WarnNoGitBranch ;;;
      ret "master"
  end.

(** Input._is_online (a property, read anew at every use) *)
Definition _is_online : M bool :=
  cfg <- get_config ;;
  ret (negb (transforms_freeze_cache cfg)).

(** Input._dataset_has_schema *)
Definition _dataset_has_schema (dataset_identity : DatasetIdentity) (branch : string)
  : M bool :=
  try_except
    (rest_call
       (GetDatasetSchema (dataset_rid dataset_identity)
          (last_transaction_rid dataset_identity) branch)
       (rest_get_dataset_schema client (dataset_rid dataset_identity)
          (last_transaction_rid dataset_identity) branch) ;;;
     ret true)
    (fun e =>
       match e with
       | DatasetHasNoSchemaError => Some (ret false)
       | _ => None
       end).

(** The [try]/[except] that opens [_online]: the identity, and the branch
    it was found on. *)
Definition _resolve_identity (alias branch : string) : M (DatasetIdentity * string) :=
  try_except
    (dataset_identity <-
       rest_call (GetDatasetIdentity alias branch)
         (rest_get_dataset_identity client alias branch) ;;
     ret (dataset_identity, branch))
    (fun e =>
       match e with
       | BranchNotFoundError =>
           Some
             (LOGGER_debug (LogFallingBackToMaster alias branch) ;;;
              let branch := "master" in
              dataset_identity <-
                rest_call (GetDatasetIdentity alias branch)
                  (rest_get_dataset_identity client alias branch) ;;
              ret (dataset_identity, branch))
       | _ => None
       end).

(** Input._online *)
Definition _online (alias branch : string) : M (bool * DatasetIdentity * string) :=
  ' (dataset_identity, branch) <- _resolve_identity alias branch ;;
  match last_transaction_rid dataset_identity with
  | None => raise (DatasetHasNoTransactionsError alias)
  | Some _ =>
      has_schema <- _dataset_has_schema dataset_identity branch ;;
      if has_schema then ret (true, dataset_identity, branch)
      else
        LOGGER_debug
          (LogNoSchema (dataset_rid dataset_identity) (dataset_path dataset_identity)
             branch) ;;;
        ret (false, dataset_identity, branch)
  end.

(** Input._offline *)
Definition _offline (alias branch : string) : M (bool * DatasetIdentity * string) :=
  dataset_identity <-
    cached_call (CacheGetDatasetIdentityNotBranchAware alias)
      (cache_get_dataset_identity_not_branch_aware cached_client alias) ;;
  has_schema <-
    cached_call (CacheDatasetHasSchema dataset_identity)
      (cache_dataset_has_schema cached_client dataset_identity) ;;
  if has_schema then ret (true, dataset_identity, branch)
  else ret (false, dataset_identity, branch).

(** The opening lines of [Input.__init__]: the branch asked for is the
    argument, or the one of the caller's checkout.  [caller_filename] is
    what [inspect.stack()[1].filename] gives. *)
Definition _requested_branch (branch : option string) (caller_filename : string)
  : M string :=
  LOGGER_debug (LogInputInstantiated caller_filename) ;;;
  match branch with
  | None => _get_branch caller_filename
  | Some b => ret b
  end.

(** Input.__init__(alias, branch) *)
Definition Input__init__ (alias : string) (branch : option string)
  (caller_filename : string) : M Input :=
  branch <- _requested_branch branch caller_filename ;;
  online <- _is_online ;;
  ' (retrievable, dataset_identity, branch) <-
    (if online then _online alias branch else _offline alias branch) ;;
  ret {| _spark_df := None;
         _is_spark_df_retrievable := retrievable;
         _dataset_identity := dataset_identity;
         branch := branch |}.

(** Input._retrieve_from_cache *)
Definition _retrieve_from_cache (dataset_identity : DatasetIdentity) (branch : string)
  : M DF :=
  LOGGER_debug (LogReturningFromCache dataset_identity branch) ;;;
  cache_getitem dataset_identity.

(** Input._read_spark_df_with_sql_query *)
Definition _read_spark_df_with_sql_query (dataset_path branch : string) : M DF :=
  let query := ("SELECT * FROM `" ++ dataset_path ++ "`")%string in
  cfg <- get_config ;;
  let query :=
    if transforms_sql_sample_select_random cfg
    then (query ++ " ORDER BY RAND()")%string
    else query in
  let query :=
    (query ++ " LIMIT " ++ str_of_int (transforms_sql_sample_row_limit cfg))%string in
  LOGGER_debug (LogExecutingQuery query branch) ;;;
  rest_call (QueryFoundrySql query branch SPARK)
    (rest_query_foundry_sql client query branch SPARK).

(** The first half of [_retrieve_from_foundry_and_cache], through the
    division that turns the size into megabytes: the size comes from the
    statistics service for a view and from the transaction's metadata
    otherwise.  Subscripting a [last_transaction] that is [None] is a
    [TypeError], and dividing an int too large for a float an
    [OverflowError].  What is handed on is the size in bytes;
    [mega_bytes] of it is the float the division gave. *)
Definition _size_in_bytes (dataset_identity : DatasetIdentity) : M Z :=
  size_in_bytes <-
    match last_transaction dataset_identity with
    | None => raise TypeError
    | Some last =>
        let transaction := transaction last in
        if is_dataset_a_view TRANSFORMS_FOUNDRY_CONTEXT transaction then
          rest_call (FoundryStats (dataset_rid dataset_identity) (rid last))
            (rest_foundry_stats client (dataset_rid dataset_identity) (rid last))
        else ret (metadata_totalFileSize transaction)
    end ;;
  if too_large_for_float size_in_bytes then raise (OtherError "OverflowError")
  else ret size_in_bytes.

(** Input._retrieve_from_foundry_and_cache *)
Definition _retrieve_from_foundry_and_cache (dataset_identity : DatasetIdentity)
  (branch : string) : M DF :=
  LOGGER_debug (LogCachingData dataset_identity branch) ;;;
  size_in_bytes <- _size_in_bytes dataset_identity ;;
  let size_in_mega_bytes := mega_bytes size_in_bytes in
  let size_in_mega_bytes_rounded := round_ndigits2 size_in_mega_bytes in
  LOGGER_debug (LogDatasetSize size_in_mega_bytes_rounded) ;;;
  cfg <- get_config ;;
  if transforms_force_full_dataset_download cfg
     || Qltb size_in_mega_bytes (transforms_sql_dataset_size_threshold cfg)
  then
    cached_call (LoadDataset (dataset_rid dataset_identity) branch)
      (cfc_load_dataset cached_client (dataset_rid dataset_identity) branch)
  else
    let dataset_name := last_item (split_on "/" (dataset_path dataset_identity)) in
    warnings_warn
      (WarnRetrievingSubset (transforms_sql_sample_row_limit cfg) dataset_name
         (dataset_rid dataset_identity) size_in_mega_bytes_rounded
         (transforms_sql_dataset_size_threshold cfg)) ;;;
    spark_df <- _read_spark_df_with_sql_query (dataset_path dataset_identity) branch ;;
    cache_setitem dataset_identity spark_df ;;;
    ret spark_df.

(** Input._retrieve_spark_df *)
Definition _retrieve_spark_df (dataset_identity : DatasetIdentity) (branch : string)
  : M DF :=
  keys <- cache_keys_call ;;
  if contains dataset_identity keys
  then _retrieve_from_cache dataset_identity branch
  else _retrieve_from_foundry_and_cache dataset_identity branch.

(** A method returns its value together with [self] as the call leaves it;
    a call that raises leaves [self] as it was. *)
Definition Method (A : Type) : Type := Input -> M (A * Input).

(** Input.dataframe *)
Definition dataframe : Method (option DF) := fun self =>
  if _is_spark_df_retrievable self
     && match _spark_df self with None => true | Some _ => false end
  then
    online <- _is_online ;;
    spark_df <-
      (if online
       then _retrieve_spark_df (_dataset_identity self) (branch self)
       else cache_getitem (_dataset_identity self)) ;;
    let self :=
      {| _spark_df := Some spark_df;
         _is_spark_df_retrievable := _is_spark_df_retrievable self;
         _dataset_identity := _dataset_identity self;
         branch := branch self |} in
    ret (_spark_df self, self)
  else ret (_spark_df self, self).

(** Input.get_dataset_identity *)
Definition get_dataset_identity : Method DatasetIdentity := fun self =>
  ret (_dataset_identity self, self).

(** Input.get_local_path_to_dataset; the collaborators' paths are taken
    after [os.fspath]. *)
Definition get_local_path_to_dataset : Method string := fun self =>
  online <- _is_online ;;
  path <-
    (if online
     then
       cached_call (FetchDataset (_dataset_identity self) (branch self))
         (cfc_fetch_dataset cached_client (_dataset_identity self) (branch self))
     else
       cached_call (CacheGetPathToLocalDataset (_dataset_identity self))
         (cache_get_path_to_local_dataset cached_client (_dataset_identity self))) ;;
  ret (path, self).

(** *** Using an Input after it is built

    The calls user code can make on an Input, and what goes on around them:
    between two calls anything may happen to the configuration, the world
    and the cache ([Outside]). *)
Inductive Op : Type :=
| OpDataframe
| OpGetDatasetIdentity
| OpGetLocalPathToDataset
| Outside (f : State -> State).

(** One step: the Input and the state after it.  The value returned (or the
    exception raised) is dropped; [self] survives an exception unchanged. *)
Definition keep_self {A : Type} (m : Method A) (self : Input) (s : State)
  : Input * State :=
  match m self s with
  | (Ok (_, self'), s') => (self', s')
  | (Raise _, s') => (self, s')
  end.

Definition step (o : Op) (self : Input) (s : State) : Input * State :=
  match o with
  | OpDataframe => keep_self dataframe self s
  | OpGetDatasetIdentity => keep_self get_dataset_identity self s
  | OpGetLocalPathToDataset => keep_self get_local_path_to_dataset self s
  | Outside f => (self, f s)
  end.

Fixpoint run (ops : list Op) (self : Input) (s : State) : Input * State :=
  match ops with
  | [] => (self, s)
  | o :: ops' => let (self', s') := step o self s in run ops' self' s'
  end.

(** What [Input.__init__] makes of the outcome of [_online] or [_offline]
    (used to state facts about the constructor). *)
Definition build (r : Result (bool * DatasetIdentity * string) * State)
  : Result (Input) * State :=
  match r with
  | (Ok (retrievable, dataset_identity, b), s') =>
      (Ok {| _spark_df := None;
             _is_spark_df_retrievable := retrievable;
             _dataset_identity := dataset_identity;
             branch := b |}, s')
  | (Raise e, s') => (Raise e, s')
  end.

End Dataset.

Arguments Input : clear implicits.
Arguments State : clear implicits.
Arguments FoundryContext : clear implicits.
Arguments FoundryRestClient : clear implicits.
Arguments CachedFoundryClient : clear implicits.
Arguments Cache : clear implicits.

(** ** A small world to run the code in

    Dataframes are named by strings and the world counts the REST calls
    made so far.  The platform knows one dataset, on branch master only;
    of the cached client's calls, load_dataset alone writes to the mapping:
    it puts the downloaded dataframe there under the dataset's identity. *)

Module Scenario.

Definition a_transaction (size_in_bytes : Z) : SecuredTransaction :=
  {| rid := "ri.foundry.main.transaction.7";
     transaction := {| record_view := false; metadata_totalFileSize := size_in_bytes |} |}.

Definition sales (size_in_bytes : Z) : DatasetIdentity :=
  {| dataset_path := "/Global/data/sales";
     dataset_rid := "ri.foundry.main.dataset.1";
     last_transaction_rid := Some "ri.foundry.main.transaction.7";
     last_transaction := Some (a_transaction size_in_bytes) |}.

Definition never_written : DatasetIdentity :=
  {| dataset_path := "/Global/data/empty";
     dataset_rid := "ri.foundry.main.dataset.2";
     last_transaction_rid := None;
     last_transaction := None |}.

Definition rest (known : DatasetIdentity) (has_schema : bool)
  : FoundryRestClient string nat :=
  {| rest_get_dataset_identity := fun _ branch w =>
       (if String.eqb branch "master" then Ok known else Raise BranchNotFoundError, S w);
     rest_get_dataset_schema := fun _ _ _ w =>
       (if has_schema then Ok tt else Raise DatasetHasNoSchemaError, S w);
     rest_foundry_stats := fun _ _ w => (Ok 0%Z, S w);
     rest_query_foundry_sql := fun query _ _ w => (Ok query, S w) |}.

Definition cached (known : DatasetIdentity) (has_schema : bool)
  : CachedFoundryClient string nat :=
  {| cfc_load_dataset := fun _ _ w c => (Ok "all rows", w, cache_store known "all rows" c);
     cfc_fetch_dataset := fun _ _ w c => (Ok "/cache/sales", w, c);
     cache_get_dataset_identity_not_branch_aware := fun _ w c => (Ok known, w, c);
     cache_dataset_has_schema := fun _ w c => (Ok has_schema, w, c);
     cache_get_path_to_local_dataset := fun _ w c => (Ok "/cache/sales", w, c) |}.

Definition context (known : DatasetIdentity) (has_schema : bool)
  : FoundryContext string nat :=
  {| foundry_rest_client := rest known has_schema;
     cached_foundry_client := cached known has_schema;
     is_dataset_a_view := record_view;
     git_toplevel_dir := fun _ _ => Ok None;
     path_cwd := fun _ => Ok "/home/dev/project";
     read_if_file := fun _ _ => Ok (Some "ref: refs/heads/feature") |}.

Definition settings (freeze force : bool) (threshold : Q) : Config :=
  {| transforms_freeze_cache := freeze;
     transforms_sql_sample_select_random := false;
     transforms_sql_sample_row_limit := 5000;
     transforms_force_full_dataset_download := force;
     transforms_sql_dataset_size_threshold := threshold |}.

Definition start (cfg : Config) : State string nat :=
  {| config := cfg; world := 0%nat; cache := []; trace := [] |}.

Definition online : State string nat := start (settings false false 500).
Definition offline : State string nat := start (settings true false 500).

Definition MiB : Z := 1024 * 1024.

(** An Input on the dataset, as the online constructor leaves it. *)
Definition an_input (size_in_bytes : Z) : Input string :=
  {| _spark_df := None;
     _is_spark_df_retrievable := true;
     _dataset_identity := sales size_in_bytes;
     branch := "master" |}.

End Scenario.

(** ** The same world with something out of order *)

Module Outage.

Import Scenario.

Definition context_with (r : FoundryRestClient string nat)
  (head : Result (option string)) (known : DatasetIdentity) (has_schema : bool)
  : FoundryContext string nat :=
  {| foundry_rest_client := r;
     cached_foundry_client := cached known has_schema;
     is_dataset_a_view := record_view;
     git_toplevel_dir := fun _ _ => Ok (Some "/home/dev/project");
     path_cwd := fun _ => Ok "/tmp";
     read_if_file := fun _ _ => head |}.

(** The platform cannot be reached. *)
Definition no_connection (known : DatasetIdentity) : FoundryContext string nat :=
  context_with
    {| rest_get_dataset_identity := fun _ _ w =>
         (Raise (OtherError "ConnectionError"), S w);
       rest_get_dataset_schema := rest_get_dataset_schema (rest known true);
       rest_foundry_stats := rest_foundry_stats (rest known true);
       rest_query_foundry_sql := rest_query_foundry_sql (rest known true) |}
    (Ok (Some "ref: refs/heads/feature")) known true.

(** The schema service answers with a server error. *)
Definition schema_outage (known : DatasetIdentity) : FoundryContext string nat :=
  context_with
    {| rest_get_dataset_identity := rest_get_dataset_identity (rest known true);
       rest_get_dataset_schema := fun _ _ _ w => (Raise (OtherError "HTTPError"), S w);
       rest_foundry_stats := rest_foundry_stats (rest known true);
       rest_query_foundry_sql := rest_query_foundry_sql (rest known true) |}
    (Ok (Some "ref: refs/heads/feature")) known true.

(** The SQL service answers with a server error. *)
Definition query_outage (known : DatasetIdentity) : FoundryContext string nat :=
  context_with
    {| rest_get_dataset_identity := rest_get_dataset_identity (rest known true);
       rest_get_dataset_schema := rest_get_dataset_schema (rest known true);
       rest_foundry_stats := rest_foundry_stats (rest known true);
       rest_query_foundry_sql := fun _ _ _ w => (Raise (OtherError "HTTPError"), S w) |}
    (Ok (Some "ref: refs/heads/feature")) known true.

(** A checkout whose HEAD file the process may not open. *)
Definition unreadable_head (known : DatasetIdentity) : FoundryContext string nat :=
  context_with (rest known true) (Raise (OtherError "PermissionError")) known true.




End Outage.

(** * Facts *)

Lemma Qltb_lt (a b : Q) : Qltb a b = true <-> (a < b)%Q.
Proof.
  unfold Qltb. rewrite negb_true_iff.
  split; intro H.
  - apply Qnot_le_lt. intro Hle. apply Qle_bool_iff in Hle. congruence.
  - destruct (Qle_bool b a) eqn:E; [|reflexivity].
    apply Qle_bool_iff in E. exfalso. exact (Qlt_not_le _ _ H E).
Qed.

Lemma Qltb_ge (a b : Q) : Qltb a b = false <-> (b <= a)%Q.
Proof.
  unfold Qltb. rewrite negb_false_iff. apply Qle_bool_iff.
Qed.

(** Below 2^53 an int is its own double, and the division is exact. *)
Lemma nearest_double_exact (n : Z) :
  (Z.abs n < 2 ^ 53)%Z -> nearest_double n = n.
Proof.
  intro H. unfold nearest_double.
  assert (Hk : (Z.log2 (Z.abs n) + 1 - 53 <= 0)%Z).
  { destruct (Z.eq_dec (Z.abs n) 0) as [E | E].
    - rewrite E. simpl. lia.
    - assert (Hlog : (Z.log2 (Z.abs n) < 53)%Z) by (apply Z.log2_lt_pow2; lia).
      lia. }
  apply Z.leb_le in Hk. rewrite Hk. reflexivity.
Qed.

Lemma mega_bytes_exact (n : Z) :
  (Z.abs n < 2 ^ 53)%Z -> (mega_bytes n == inject_Z n / 1024 / 1024)%Q.
Proof.
  intro H. unfold mega_bytes. rewrite (nearest_double_exact n H). reflexivity.
Qed.


(** Above 2^53 the double is not the int: the sizes are those of the
    float, as Python computes them. *)
Example mega_bytes_rounds_up :
  (mega_bytes (2 ^ 54 - 1) == 2 ^ 34)%Q
  /\ (inject_Z (2 ^ 54 - 1) / 1024 / 1024 < 2 ^ 34)%Q.
Proof. split; vm_compute; reflexivity. Qed.

Example mega_bytes_ties_to_even :
  (mega_bytes (2 ^ 53 + 2 ^ 17 + 1) == 8589934592125 # 1000)%Q
  /\ (round_ndigits2 (mega_bytes (2 ^ 53 + 2 ^ 17 + 1))
      == Qnearest_double (858993459212 # 100))%Q
  /\ ~ (round_ndigits2 (mega_bytes (2 ^ 53 + 2 ^ 17 + 1))
        == Qnearest_double (858993459213 # 100))%Q.
Proof. repeat split; vm_compute; congruence. Qed.

(** The rounded size is a double as well: the one Python prints as the
    decimal.  A decimal that is a double is kept, another one is replaced
    by its neighbour. *)
Example rounded_sizes :
  (round_ndigits2 (mega_bytes (600 * 1024 * 1024)) == 600)%Q
  /\ (round_ndigits2 (mega_bytes (3 * 512 * 1024)) == 15 # 10)%Q
  /\ (round_ndigits2 (mega_bytes (2 ^ 69 + 2 ^ 17)) == 562949953421312125 # 1000)%Q
  /\ (Qnearest_double (1 # 10) == 3602879701896397 # 36028797018963968)%Q.
Proof. repeat split; vm_compute; reflexivity. Qed.

Example a_size_too_large_for_a_float :
  too_large_for_float (2 ^ 1034 - 1) = true
  /\ too_large_for_float ((2 ^ 53 - 1) * 2 ^ 981) = false.
Proof. split; vm_compute; reflexivity. Qed.

Example split_on_path :
  last_item (split_on "/" "/Global/data/my_dataset") = "my_dataset".
Proof. reflexivity. Qed.

Example strip_head :
  strip (" ref: refs/heads/main" ++ String (ascii_of_nat 10) "")%string = "ref: refs/heads/main".
Proof. reflexivity. Qed.

Example str_of_int_5000 : str_of_int 5000 = "5000".
Proof. reflexivity. Qed.

Example round_eighth : (round_ndigits2 (1 # 8) == Qnearest_double (12 # 100))%Q.
Proof. reflexivity. Qed.


(** ** The marking definitions *)

Example as_list_examples :
  _as_list PyNone = []
  /\ _as_list (PyStr "ri.marking.1") = [PyStr "ri.marking.1"]
  /\ _as_list (PyList [PyStr "a"; PyStr "b"]) = [PyStr "a"; PyStr "b"]
  /\ _as_list (PyList []) = []
  /\ _as_list (PyInt 0) = [].
Proof. repeat split. Qed.

Lemma as_list_cases (x : PyVal) :
  _as_list x =
  match x with
  | PyList l => l
  | _ => if truthy x then [x] else []
  end.
Proof.
  unfold _as_list.
  destruct x as [ | b | z | s | l ]; simpl; try reflexivity.
  - destruct b; reflexivity.
  - destruct (Z.eqb z 0); reflexivity.
  - destruct (String.eqb s ""); reflexivity.
  - destruct l; reflexivity.
Qed.

(** C8, as stated, fails: the empty string is a single value that is not a
    list, and it is stored as the empty list, not as the list holding it. *)
Lemma as_list_drops_empty_string :
  isinstance_list (PyStr "") = false
  /\ marking_ids (UnmarkingDef__init__ (PyStr "") PyNone) = []
  /\ marking_ids (UnmarkingDef__init__ (PyStr "") PyNone) <> [PyStr ""]
  /\ branches (OrgMarkings__init__ PyNone (PyStr "")) <> [PyStr ""].
Proof. repeat split; simpl; discriminate. Qed.

(** C8, amended: UnmarkingDef (and Markings, OrgMarkings) stores both
    arguments as lists; a list is stored as it is, a value that is not a
    list is stored as the one-element list holding it when it is truthy, and
    as the empty list when it is falsy (None, but also the empty string, 0
    and False). *)
Theorem unmarking_def_stores_lists (marking_ids_arg on_branches : PyVal) :
  let normal (x : PyVal) :=
    match x with
    | PyList l => l
    | _ => if truthy x then [x] else []
    end in
  marking_ids (UnmarkingDef__init__ marking_ids_arg on_branches) = normal marking_ids_arg
  /\ branches (UnmarkingDef__init__ marking_ids_arg on_branches) = normal on_branches
  /\ Markings__init__ marking_ids_arg on_branches
     = UnmarkingDef__init__ marking_ids_arg on_branches
  /\ OrgMarkings__init__ marking_ids_arg on_branches
     = UnmarkingDef__init__ marking_ids_arg on_branches
  /\ normal PyNone = [].
Proof.
  simpl. repeat split; apply as_list_cases.
Qed.

(** ** The Input class *)

Section DatasetFacts.

Context {DF W : Type}.
Variable ctx : FoundryContext DF W.

Notation "x <- m ;; k" := (bind m (fun x => k))
  (at level 100, m at next level, right associativity).
Notation "m ;;; k" := (bind m (fun _ => k))
  (at level 100, right associativity).

Let client := foundry_rest_client ctx.
Let cached_client := cached_foundry_client ctx.

(** Unfolds the plumbing of the monad. *)
Ltac plumbing :=
  unfold _is_online, cache_keys_call, cache_getitem, cache_setitem,
    LOGGER_debug, warnings_warn in *;
  unfold bind, ret, raise, try_except, emit, get_config, get_world,
    rest_call, cached_call in *.

Lemma cache_lookup_store (k : DatasetIdentity) (v : DF) (c : Cache DF) :
  cache_lookup k (cache_store k v c) = Some v.
Proof.
  induction c as [ | [k' v'] c IH ]; simpl.
  - unfold identity_eqb. destruct (DatasetIdentity_eq_dec k k); congruence.
  - destruct (identity_eqb k k') eqn:E; simpl; rewrite E; auto.
Qed.

Lemma contains_keys_lookup (k : DatasetIdentity) (c : Cache DF) :
  contains k (cache_keys c) = true <-> exists v, cache_lookup k c = Some v.
Proof.
  unfold contains, cache_keys.
  induction c as [ | [k' v'] c IH ]; simpl.
  - split; [discriminate | intros [v H]; discriminate].
  - destruct (identity_eqb k k'); simpl.
    + split; eauto.
    + exact IH.
Qed.

(** *** C7: identity and branch are never written after construction *)

Lemma dataframe_frame (self : Input DF) (s : State DF W) :
  _dataset_identity (fst (keep_self (dataframe ctx) self s)) = _dataset_identity self
  /\ branch (fst (keep_self (dataframe ctx) self s)) = branch self.
Proof.
  unfold keep_self, dataframe.
  destruct (_is_spark_df_retrievable self && _) eqn:E.
  - plumbing. simpl.
    destruct (negb (transforms_freeze_cache (config s))).
    + destruct (_retrieve_spark_df ctx (_dataset_identity self) (branch self) s)
        as [[df | e] s']; simpl; auto.
    + simpl. destruct (cache_lookup (_dataset_identity self) (cache s)); simpl; auto.
  - plumbing. simpl. auto.
Qed.

Lemma step_frame (o : Op) (self : Input DF) (s : State DF W) :
  _dataset_identity (fst (step ctx o self s)) = _dataset_identity self
  /\ branch (fst (step ctx o self s)) = branch self.
Proof.
  destruct o; simpl.
  - apply dataframe_frame.
  - auto.
  - unfold keep_self, get_local_path_to_dataset. plumbing. simpl.
    destruct (negb (transforms_freeze_cache (config s))); simpl.
    + destruct (cfc_fetch_dataset _ _ _ _ _) as [[[p | e] w'] c']; simpl; auto.
    + destruct (cache_get_path_to_local_dataset _ _ _ _) as [[[p | e] w'] c']; simpl; auto.
  - auto.
Qed.

(** C7: whatever sequence of dataframe(), get_dataset_identity() and
    get_local_path_to_dataset() calls is made on an Input, with anything
    happening to its surroundings in between and whether or not the calls
    raise, the Input's stored dataset identity and branch are those it had
    at the start; each of the three methods also hands back an Input with
    the same identity and branch when it returns. *)
Theorem identity_and_branch_are_frozen (ops : list Op) (self : Input DF) (s : State DF W) :
  (_dataset_identity (fst (run ctx ops self s)) = _dataset_identity self
   /\ branch (fst (run ctx ops self s)) = branch self)
  /\ (forall r self' s', dataframe ctx self s = (Ok (r, self'), s') ->
        _dataset_identity self' = _dataset_identity self /\ branch self' = branch self)
  /\ (forall r self' s', get_dataset_identity self s = (Ok (r, self'), s') ->
        self' = self /\ r = _dataset_identity self)
  /\ (forall r self' s', get_local_path_to_dataset ctx self s = (Ok (r, self'), s') ->
        self' = self).
Proof.
  split; [ | split; [ | split ] ].
  - revert self s.
    induction ops as [ | o ops IH ]; intros self s; simpl; [auto | ].
    destruct (step ctx o self s) as [self1 s1] eqn:E.
    destruct (IH self1 s1) as [H1 H2].
    destruct (step_frame o self s) as [H3 H4].
    rewrite E in H3, H4. simpl in H3, H4.
    split; congruence.
  - intros r self' s' H.
    destruct (dataframe_frame self s) as [H1 H2].
    unfold keep_self in H1, H2. rewrite H in H1, H2. simpl in *. auto.
  - intros r self' s' H. unfold get_dataset_identity, ret in H.
    inversion H; subst; auto.
  - intros r self' s' H.
    unfold get_local_path_to_dataset in H. plumbing. simpl in H.
    destruct (negb (transforms_freeze_cache (config s))); simpl in H.
    + destruct (cfc_fetch_dataset _ _ _ _ _) as [[[p | e] w'] c']; simpl in H;
        inversion H; auto.
    + destruct (cache_get_path_to_local_dataset _ _ _ _) as [[[p | e] w'] c'];
        simpl in H; inversion H; auto.
Qed.

(** *** The constructor *)

Lemma get_branch_runs (caller : string) (s : State DF W) :
  exists r evs,
    _get_branch ctx caller s
    = (r,
       {| config := config s; world := world s; cache := cache s;
          trace := trace s ++ evs |})
    /\ (evs = [] \/ evs = [Warn WarnNoGitBranch]).
Proof.
  assert (Hs : forall r : Result string,
            exists r' evs,
              (r, s)
              = (r', {| config := config s; world := world s; cache := cache s;
                        trace := trace s ++ evs |})
              /\ (evs = [] \/ evs = [Warn WarnNoGitBranch])).
  { intro r. exists r, []. rewrite app_nil_r. destruct s; auto. }
  unfold _get_branch, world_read. plumbing. simpl.
  destruct (git_toplevel_dir ctx caller (world s)) as [[d | ] | e]; simpl;
    [ | destruct (path_cwd ctx (world s)) as [d | e]; simpl | ];
    try apply Hs;
    (match goal with
     | |- context [read_if_file ctx ?p ?w] =>
         destruct (read_if_file ctx p w) as [[text | ] | e']
     end; simpl;
     [ destruct (startswith (strip text) "ref: refs/heads/"); apply Hs
     | exists (Ok "master"), [Warn WarnNoGitBranch]; auto
     | apply Hs ]).
Qed.

Lemma requested_branch_runs (ob : option string) (caller : string) (s : State DF W) :
  exists r evs,
    _requested_branch ctx ob caller s
    = (r,
       {| config := config s; world := world s; cache := cache s;
          trace := trace s ++ evs |})
    /\ existsb is_rest evs = false
    /\ existsb is_schema_lookup evs = false
    /\ existsb is_data_retrieval evs = false
    /\ existsb is_no_schema_record evs = false
    /\ (forall b, ob = Some b -> r = Ok b)
    /\ existsb is_cache_store evs = false.
Proof.
  unfold _requested_branch, bind at 1. unfold LOGGER_debug, emit.
  destruct ob as [b | ].
  - exists (Ok b), [Debug (LogInputInstantiated caller)]. repeat split.
    intros b' H. congruence.
  - destruct (get_branch_runs caller
                {| config := config s; world := world s; cache := cache s;
                   trace := trace s ++ [Debug (LogInputInstantiated caller)] |})
      as (r & evs & E & Hev).
    rewrite E. cbn [config world cache trace].
    exists r, (Debug (LogInputInstantiated caller) :: evs).
    rewrite <- app_assoc.
    destruct Hev as [-> | ->]; repeat split; discriminate.
Qed.

Lemma requested_branch_keeps (ob : option string) (caller : string)
  (s s0 : State DF W) (r : Result string) :
  _requested_branch ctx ob caller s = (r, s0) ->
  config s0 = config s /\ world s0 = world s /\ cache s0 = cache s.
Proof.
  intro H.
  destruct (requested_branch_runs ob caller s) as (b & evs & E & _).
  rewrite E in H. inversion H; subst. simpl. auto.
Qed.

Lemma init_after_branch (alias : string) (ob : option string) (caller : string)
  (s s0 : State DF W) (requested : string) :
  _requested_branch ctx ob caller s = (Ok requested, s0) ->
  Input__init__ ctx alias ob caller s
  = build (if negb (transforms_freeze_cache (config s))
           then _online ctx alias requested s0
           else _offline ctx alias requested s0).
Proof.
  intro H.
  destruct (requested_branch_keeps _ _ _ _ _ H) as (Hc & _).
  unfold Input__init__, bind at 1. rewrite H.
  plumbing. simpl. rewrite Hc.
  destruct (negb (transforms_freeze_cache (config s))).
  - destruct (_online ctx alias requested s0) as [[[[r i] b] | e] s']; reflexivity.
  - destruct (_offline ctx alias requested s0) as [[[[r i] b] | e] s']; reflexivity.
Qed.


(** *** C2: one retry, on master *)

(** C2: when the constructor is online and the REST client answers the
    lookup of the identity on the branch asked for with a branch-not-found
    error, the constructor makes exactly one further lookup, for the same
    alias on branch "master"; an error of that second lookup is the
    constructor's error, and an Input the constructor returns has branch
    "master" and the identity the second lookup gave (it does return one
    when that identity has a transaction and the schema lookup ends
    normally or with the no-schema error). *)
Theorem branch_not_found_retries_on_master
  (alias : string) (ob : option string) (caller : string)
  (s s0 : State DF W) (requested : string) (w1 : W) :
  transforms_freeze_cache (config s) = false ->
  _requested_branch ctx ob caller s = (Ok requested, s0) ->
  rest_get_dataset_identity client alias requested (world s0)
  = (Raise BranchNotFoundError, w1) ->
  let result := Input__init__ ctx alias ob caller s in
  let retry := rest_get_dataset_identity client alias "master" w1 in
  exists evs,
    trace (snd result) = trace s0 ++ evs
    /\ filter is_identity_lookup evs
       = [Rest (GetDatasetIdentity alias requested);
          Rest (GetDatasetIdentity alias "master")]
    /\ (forall inp, fst result = Ok inp ->
          branch inp = "master" /\ fst retry = Ok (_dataset_identity inp))
    /\ (forall e, fst retry = Raise e -> fst result = Raise e)
    /\ (forall dataset_identity,
          fst retry = Ok dataset_identity ->
          last_transaction_rid dataset_identity <> None ->
          (forall e,
             fst (rest_get_dataset_schema client (dataset_rid dataset_identity)
                    (last_transaction_rid dataset_identity) "master" (snd retry))
             = Raise e -> e = DatasetHasNoSchemaError) ->
          exists inp,
            fst result = Ok inp /\ branch inp = "master"
            /\ _dataset_identity inp = dataset_identity).
Proof.
  intros Hon Hreq Hfirst result retry.
  subst result. rewrite (init_after_branch _ _ _ _ _ _ Hreq). rewrite Hon. simpl.
  unfold _online, _resolve_identity, _dataset_has_schema. plumbing. simpl.
  fold client. rewrite Hfirst. simpl.
  subst retry.
  destruct (rest_get_dataset_identity client alias "master" w1) as [[i | e] w2]; simpl.
  - destruct (last_transaction_rid i) as [t | ] eqn:Ht; simpl.
    + destruct (rest_get_dataset_schema client (dataset_rid i) (Some t) "master" w2)
        as [[[] | e] w3] eqn:Hs; simpl.
      * eexists. split; [rewrite <- !app_assoc; reflexivity | ].
        simpl. refine (conj eq_refl (conj _ (conj _ _))).
        -- intros inp H. inversion H. auto.
        -- discriminate.
        -- intros d Hd _ _. inversion Hd; subst. eauto.
      * destruct e; simpl;
          (eexists; split; [rewrite <- !app_assoc; reflexivity | ]);
          simpl; (refine (conj eq_refl (conj _ (conj _ _))));
          try discriminate;
          try (intros inp H; inversion H; auto; fail);
          try (intros d Hd _ Hsch; inversion Hd; subst; rewrite Ht in Hsch;
               rewrite Hs in Hsch; specialize (Hsch _ eq_refl); try discriminate;
               eauto).
    + eexists. split; [rewrite <- !app_assoc; reflexivity | ].
      simpl. refine (conj eq_refl (conj _ (conj _ _))); try discriminate.
      intros d Hd Hne. inversion Hd; subst. congruence.
  - eexists. split; [rewrite <- !app_assoc; reflexivity | ].
    simpl. refine (conj eq_refl (conj _ (conj _ _))); try discriminate.
    intros e' H. congruence.
Qed.


Lemma resolve_identity_trace (alias requested : string) (s0 s1 : State DF W)
  (r : Result (DatasetIdentity * string)) :
  _resolve_identity ctx alias requested s0 = (r, s1) ->
  config s1 = config s0 /\ cache s1 = cache s0
  /\ exists evs,
       trace s1 = trace s0 ++ evs
       /\ existsb is_schema_lookup evs = false
       /\ existsb is_data_retrieval evs = false
       /\ existsb is_no_schema_record evs = false.
Proof.
  unfold _resolve_identity. plumbing. simpl. fold client.
  destruct (rest_get_dataset_identity client alias requested (world s0))
    as [[i | e] w1]; simpl.
  - intro H. inversion H; subst; simpl. repeat split. eexists. repeat split.
  - destruct e; simpl;
      try (intro H; inversion H; subst; simpl; repeat split; eexists; repeat split; fail).
    destruct (rest_get_dataset_identity client alias "master" w1) as [[i | e] w2];
      simpl; intro H; inversion H; subst; simpl; repeat split;
      eexists; (split; [rewrite <- !app_assoc; reflexivity | repeat split]).
Qed.

(** *** C3: no transactions *)

(** C3, amended: when the Input is online and the identity resolved (on
    the branch asked for, or on master after the fallback) has
    last_transaction_rid None, the constructor raises the
    dataset-has-no-transactions error for the alias right after the
    resolution: the state is the one the resolution left, and nothing the
    constructor did up to there is a schema lookup or a data retrieval. *)
Theorem no_transactions_raises_online
  (alias : string) (ob : option string) (caller : string)
  (s s0 s1 : State DF W) (requested b : string) (dataset_identity : DatasetIdentity) :
  transforms_freeze_cache (config s) = false ->
  _requested_branch ctx ob caller s = (Ok requested, s0) ->
  _resolve_identity ctx alias requested s0 = (Ok (dataset_identity, b), s1) ->
  last_transaction_rid dataset_identity = None ->
  Input__init__ ctx alias ob caller s
  = (Raise (DatasetHasNoTransactionsError alias), s1)
  /\ exists evs,
       trace s1 = trace s ++ evs
       /\ existsb is_schema_lookup evs = false
       /\ existsb is_data_retrieval evs = false.
Proof.
  intros Hon Hreq Hres Hnone.
  split.
  - rewrite (init_after_branch _ _ _ _ _ _ Hreq). rewrite Hon. simpl.
    unfold _online, bind at 1. rewrite Hres. rewrite Hnone. reflexivity.
  - destruct (requested_branch_runs ob caller s)
      as (b0 & evs0 & E & _ & Hs0 & Hd0 & _).
    rewrite E in Hreq. inversion Hreq; subst.
    destruct (resolve_identity_trace _ _ _ _ _ Hres)
      as (_ & _ & evs1 & Ht & Hs1 & Hd1 & _).
    exists (evs0 ++ evs1). simpl in Ht.
    rewrite Ht, app_assoc, !existsb_app, Hs0, Hd0, Hs1, Hd1. auto.
Qed.


(** *** C4: no schema *)






(** *** C9: the offline constructor *)

(** C9: when transforms_freeze_cache is set, the constructor's outcome is
    settled by two calls on the cache and nothing else: the identity comes
    from get_dataset_identity_not_branch_aware, which is given the alias
    and no branch (so asking for another branch changes nothing but the
    branch stored), the branch stored is the one asked for, no call is made
    on the REST client, and there is no check of last_transaction_rid: if
    the two cache calls return, the constructor returns an Input whatever
    the identity's last_transaction_rid, and if it raises, the exception
    is the one a cache call raised, so a dataset-has-no-transactions error
    is never raised by the constructor itself. *)
Theorem offline_resolves_from_cache
  (alias : string) (ob : option string) (caller : string)
  (s s0 : State DF W) (requested : string) :
  transforms_freeze_cache (config s) = true ->
  _requested_branch ctx ob caller s = (Ok requested, s0) ->
  let result := Input__init__ ctx alias ob caller s in
  let lookup :=
    cache_get_dataset_identity_not_branch_aware cached_client alias
      (world s0) (cache s0) in
  match lookup with
  | (Raise e, _, _) => fst result = Raise e
  | (Ok dataset_identity, w1, c1) =>
      match cache_dataset_has_schema cached_client dataset_identity w1 c1 with
      | (Raise e, _, _) => fst result = Raise e
      | (Ok has_schema, _, _) =>
          fst result
          = Ok {| _spark_df := None; _is_spark_df_retrievable := has_schema;
                  _dataset_identity := dataset_identity; branch := requested |}
      end
  end
  /\ (exists evs,
        trace (snd result) = trace s ++ evs /\ existsb is_rest evs = false)
  /\ (forall other : string,
        match _offline ctx alias requested s0, _offline ctx alias other s0 with
        | (Ok (r1, i1, b1), t1), (Ok (r2, i2, b2), t2) =>
            r1 = r2 /\ i1 = i2 /\ t1 = t2 /\ b1 = requested /\ b2 = other
        | (Raise e1, t1), (Raise e2, t2) => e1 = e2 /\ t1 = t2
        | _, _ => False
        end)
  /\ (forall d,
        fst result = Raise (DatasetHasNoTransactionsError d) ->
        fst (fst lookup) = Raise (DatasetHasNoTransactionsError d)
        \/ exists dataset_identity w1 c1,
             lookup = (Ok dataset_identity, w1, c1)
             /\ fst (fst (cache_dataset_has_schema cached_client dataset_identity w1 c1))
                = Raise (DatasetHasNoTransactionsError d)).
Proof.
  intros Hoff Hreq result lookup.
  destruct (requested_branch_runs ob caller s) as (b0 & evs0 & E & Hr0 & _).
  rewrite E in Hreq. inversion Hreq; subst b0 s0. clear Hreq.
  subst result lookup. rewrite (init_after_branch _ _ _ _ _ _ E).
  rewrite Hoff. simpl.
  unfold _offline. plumbing. simpl. fold cached_client.
  destruct (cache_get_dataset_identity_not_branch_aware cached_client alias
              (world s) (cache s)) as [[[i | e] w1] c1]; simpl.
  - destruct (cache_dataset_has_schema cached_client i w1 c1)
      as [[[h | e] w2] c2] eqn:Hs; simpl.
    + refine (conj _ (conj _ (conj _ _))).
      * destruct h; reflexivity.
      * eexists. split.
        -- destruct h; simpl; rewrite <- !app_assoc; reflexivity.
        -- rewrite existsb_app, Hr0. reflexivity.
      * intros other. destruct h; simpl; auto.
      * intros d H. destruct h; discriminate.
    + refine (conj eq_refl (conj _ (conj _ _))).
      * eexists. split; [rewrite <- !app_assoc; reflexivity | ].
        rewrite existsb_app, Hr0. reflexivity.
      * auto.
      * intros d H. right. exists i, w1, c1.
        split; [reflexivity | rewrite Hs; simpl; congruence].
  - refine (conj eq_refl (conj _ (conj _ _))).
    + eexists. split; [rewrite <- !app_assoc; reflexivity | ].
      rewrite existsb_app, Hr0. reflexivity.
    + auto.
    + intros d H. left. congruence.
Qed.


(** *** Retrieval *)

Lemma string_app_assoc (a b c : string) :
  ((a ++ b) ++ c = a ++ (b ++ c))%string.
Proof. induction a as [ | ch a IH ]; simpl; [reflexivity | now rewrite IH]. Qed.


Lemma read_sql_run (dataset_path b : string) (s : State DF W) :
  let query :=
    sampled_sql dataset_path (transforms_sql_sample_select_random (config s))
      (transforms_sql_sample_row_limit (config s)) in
  _read_spark_df_with_sql_query ctx dataset_path b s
  = (let (r, w') := rest_query_foundry_sql client query b SPARK (world s) in
     (r, {| config := config s; world := w'; cache := cache s;
            trace := trace s ++ [Debug (LogExecutingQuery query b);
                                 Rest (QueryFoundrySql query b SPARK)] |})).
Proof.
  intro query.
  assert (Hq : ((if transforms_sql_sample_select_random (config s)
                 then ("SELECT * FROM `" ++ dataset_path ++ "`") ++ " ORDER BY RAND()"
                 else "SELECT * FROM `" ++ dataset_path ++ "`")
                ++ " LIMIT " ++ str_of_int (transforms_sql_sample_row_limit (config s))
                = query)%string).
  { subst query. unfold sampled_sql.
    destruct (transforms_sql_sample_select_random (config s)).
    - rewrite !string_app_assoc. reflexivity.
    - rewrite !string_app_assoc. reflexivity. }
  unfold _read_spark_df_with_sql_query. plumbing. cbv beta iota zeta.
  fold client. rewrite Hq. cbn [config world cache trace].
  destruct (rest_query_foundry_sql client query b SPARK (world s)) as [r w'].
  rewrite <- app_assoc. reflexivity.
Qed.


Lemma size_step_keeps (dataset_identity : DatasetIdentity) (b : string)
  (s s1 : State DF W) (r : Result Z) :
  (LOGGER_debug (LogCachingData dataset_identity b) ;;;
   _size_in_bytes ctx dataset_identity) s = (r, s1) ->
  config s1 = config s /\ cache s1 = cache s
  /\ exists evs,
       trace s1 = trace s ++ evs
       /\ existsb is_load_dataset evs = false
       /\ existsb is_query evs = false
       /\ existsb is_warning evs = false
       /\ existsb is_cache_store evs = false.
Proof.
  unfold _size_in_bytes. plumbing. simpl.
  destruct (last_transaction dataset_identity) as [last | ]; simpl.
  - destruct (is_dataset_a_view ctx (transaction last)); simpl.
    + fold client.
      destruct (rest_foundry_stats client (dataset_rid dataset_identity) (rid last)
                  (world s)) as [[n | e] w']; [destruct (too_large_for_float n) | ];
        intro H; inversion H; subst; simpl; repeat split;
        (eexists; split; [rewrite <- app_assoc; reflexivity | repeat split]).
    + destruct (too_large_for_float (metadata_totalFileSize (transaction last)));
        intro H; inversion H; subst; simpl; repeat split;
        eexists; repeat split.
  - intro H. inversion H; subst; simpl. repeat split.
    eexists. repeat split.
Qed.

Lemma retrieve_uncached_run (dataset_identity : DatasetIdentity) (b : string)
  (s s1 : State DF W) (n : Z) :
  (LOGGER_debug (LogCachingData dataset_identity b) ;;;
   _size_in_bytes ctx dataset_identity) s = (Ok n, s1) ->
  _retrieve_from_foundry_and_cache ctx dataset_identity b s
  = (let cfg := config s in
     let size_in_mega_bytes := mega_bytes n in
     let tr := trace s1 ++ [Debug (LogDatasetSize (round_ndigits2 size_in_mega_bytes))] in
     if transforms_force_full_dataset_download cfg
        || Qltb size_in_mega_bytes (transforms_sql_dataset_size_threshold cfg)
     then
       match cfc_load_dataset cached_client (dataset_rid dataset_identity) b
               (world s1) (cache s) with
       | (r, w', c') =>
           (r, {| config := cfg; world := w'; cache := c';
                  trace := tr ++ [Cached (LoadDataset (dataset_rid dataset_identity) b)] |})
       end
     else
       let query :=
         sampled_sql (dataset_path dataset_identity)
           (transforms_sql_sample_select_random cfg)
           (transforms_sql_sample_row_limit cfg) in
       let tr' :=
         tr ++ [Warn (WarnRetrievingSubset (transforms_sql_sample_row_limit cfg)
                        (last_item (split_on "/" (dataset_path dataset_identity)))
                        (dataset_rid dataset_identity)
                        (round_ndigits2 size_in_mega_bytes)
                        (transforms_sql_dataset_size_threshold cfg));
                Debug (LogExecutingQuery query b);
                Rest (QueryFoundrySql query b SPARK)] in
       match rest_query_foundry_sql client query b SPARK (world s1) with
       | (Ok spark_df, w') =>
           (Ok spark_df,
            {| config := cfg; world := w';
               cache := cache_store dataset_identity spark_df (cache s);
               trace := tr' ++ [Cached (CacheSetItem dataset_identity)] |})
       | (Raise e, w') =>
           (Raise e, {| config := cfg; world := w'; cache := cache s; trace := tr' |})
       end).
Proof.
  intro H.
  destruct (size_step_keeps _ _ _ _ _ H) as (Hc & Hk & _).
  unfold _retrieve_from_foundry_and_cache.
  unfold bind at 1 in H. unfold bind at 1.
  destruct (LOGGER_debug (LogCachingData dataset_identity b) s) as [[[] | e] s0];
    [ | discriminate].
  unfold bind at 1. rewrite H.
  plumbing. cbv beta iota zeta. cbn [config world cache trace].
  rewrite Hc, Hk.
  destruct (transforms_force_full_dataset_download (config s)
            || Qltb (mega_bytes n) (transforms_sql_dataset_size_threshold (config s))).
  - cbv beta iota zeta. cbn [config world cache trace]. fold cached_client.
    destruct (cfc_load_dataset cached_client (dataset_rid dataset_identity) b
                (world s1) (cache s)) as [[r w'] c'].
    reflexivity.
  - cbv beta iota zeta. rewrite read_sql_run. cbn [config world cache trace].
    destruct (rest_query_foundry_sql client _ b SPARK (world s1)) as [[df | e] w'];
      cbn [config world cache trace]; rewrite <- ?app_assoc; reflexivity.
Qed.


Lemma retrieve_spark_df_miss (dataset_identity : DatasetIdentity) (b : string)
  (s : State DF W) :
  contains dataset_identity (cache_keys (cache s)) = false ->
  _retrieve_spark_df ctx dataset_identity b s
  = _retrieve_from_foundry_and_cache ctx dataset_identity b (logged [Cached CacheKeys] s).
Proof.
  intro H. unfold _retrieve_spark_df. plumbing. cbv beta iota zeta.
  rewrite H. reflexivity.
Qed.

Lemma retrieve_spark_df_hit (dataset_identity : DatasetIdentity) (b : string)
  (s : State DF W) (df : DF) :
  cache_lookup dataset_identity (cache s) = Some df ->
  _retrieve_spark_df ctx dataset_identity b s
  = (Ok df,
     logged [Cached CacheKeys; Debug (LogReturningFromCache dataset_identity b);
             Cached (CacheGetItem dataset_identity)] s).
Proof.
  intro H.
  assert (Hc : contains dataset_identity (cache_keys (cache s)) = true)
    by (apply contains_keys_lookup; eauto).
  unfold _retrieve_spark_df, _retrieve_from_cache. plumbing. cbv beta iota zeta.
  rewrite Hc. cbn [config world cache trace]. rewrite H.
  unfold logged. rewrite <- !app_assoc. reflexivity.
Qed.

(** *** C10: which way the uncached retrieval goes *)



(** *** C1: below and above the threshold *)

(** C1, amended: when an online Input retrieves a dataframe whose identity
    is not among the cache keys, a dataset whose size in megabytes (the
    float the code computes) is below the threshold is downloaded in full
    (load_dataset is called and its outcome is the outcome; no query, no
    warning), and a dataset whose size is above the threshold is fetched by
    the sampling query with a warning emitted (and no full download)
    provided transforms_force_full_dataset_download is not set; when it is
    set, the dataset is downloaded in full whatever its size, and no
    warning is emitted.  The size in megabytes is the float that
    size_in_bytes / 1024 / 1024 gives, which is the exact quotient for a
    size below 2^53 bytes. *)
Theorem uncached_retrieval_by_size
  (dataset_identity : DatasetIdentity) (b : string) (s s1 : State DF W) (n : Z) :
  contains dataset_identity (cache_keys (cache s)) = false ->
  (LOGGER_debug (LogCachingData dataset_identity b) ;;;
   _size_in_bytes ctx dataset_identity) (logged [Cached CacheKeys] s) = (Ok n, s1) ->
  let threshold := transforms_sql_dataset_size_threshold (config s) in
  let size_in_mega_bytes := mega_bytes n in
  let result := _retrieve_spark_df ctx dataset_identity b s in
  exists evs,
    trace (snd result) = trace s ++ evs
    /\ ((size_in_mega_bytes < threshold)%Q ->
        existsb is_load_dataset evs = true
        /\ existsb is_query evs = false
        /\ existsb is_warning evs = false
        /\ fst result
           = fst (fst (cfc_load_dataset cached_client (dataset_rid dataset_identity) b
                         (world s1) (cache s))))
    /\ ((threshold < size_in_mega_bytes)%Q ->
        transforms_force_full_dataset_download (config s) = false ->
        existsb is_query evs = true
        /\ existsb is_warning evs = true
        /\ existsb is_load_dataset evs = false
        /\ fst result
           = fst (rest_query_foundry_sql client
                    (sampled_sql (dataset_path dataset_identity)
                       (transforms_sql_sample_select_random (config s))
                       (transforms_sql_sample_row_limit (config s)))
                    b SPARK (world s1)))
    /\ (transforms_force_full_dataset_download (config s) = true ->
        existsb is_load_dataset evs = true
        /\ existsb is_query evs = false
        /\ existsb is_warning evs = false
        /\ fst result
           = fst (fst (cfc_load_dataset cached_client (dataset_rid dataset_identity) b
                         (world s1) (cache s))))
    /\ ((Z.abs n < 2 ^ 53)%Z -> (size_in_mega_bytes == inject_Z n / 1024 / 1024)%Q).
Proof.
  intros Hmiss H threshold size_in_mega_bytes result.
  assert (Hexact : (Z.abs n < 2 ^ 53)%Z
                   -> (size_in_mega_bytes == inject_Z n / 1024 / 1024)%Q)
    by (apply mega_bytes_exact).
  destruct (size_step_keeps _ _ _ _ _ H) as (_ & _ & evs0 & Ht & Hl & Hq & Hw & _).
  subst result. rewrite (retrieve_spark_df_miss _ _ _ Hmiss).
  rewrite (retrieve_uncached_run _ _ _ _ _ H).
  cbv zeta. cbn [logged config world cache trace] in *.
  fold threshold size_in_mega_bytes.
  destruct (transforms_force_full_dataset_download (config s)
            || Qltb size_in_mega_bytes threshold) eqn:Hfull.
  - destruct (cfc_load_dataset cached_client (dataset_rid dataset_identity) b
                (world s1) (cache s)) as [[r w'] c'].
    eexists. split; [simpl; rewrite Ht, <- !app_assoc; reflexivity | ].
    rewrite !existsb_app, Hl, Hq, Hw. simpl. split; [ | split].
    + auto.
    + intros Habove Hforce. rewrite Hforce in Hfull. simpl in Hfull.
      apply Qltb_lt in Hfull. exfalso.
      exact (Qlt_irrefl _ (Qlt_trans _ _ _ Hfull Habove)).
    + split; [auto | exact Hexact].
  - apply orb_false_iff in Hfull. destruct Hfull as [Hforce Hlt].
    apply Qltb_ge in Hlt.
    destruct (rest_query_foundry_sql client _ b SPARK (world s1)) as [[df | e] w'];
      (eexists; split; [simpl; rewrite Ht, <- !app_assoc; reflexivity | ]);
      rewrite !existsb_app, Hl, Hq, Hw; simpl;
      (split; [ | split; [auto | split; [intro Hset; congruence | exact Hexact]]]);
      intro Hbelow; exfalso; exact (Qlt_not_le _ _ Hbelow Hlt).
Qed.


(** *** C5 and C6: dataframe() on an online Input with a schema *)

Lemma dataframe_online (self : Input DF) (s : State DF W) :
  transforms_freeze_cache (config s) = false ->
  _is_spark_df_retrievable self = true ->
  _spark_df self = None ->
  dataframe ctx self s
  = match _retrieve_spark_df ctx (_dataset_identity self) (branch self) s with
    | (Ok spark_df, s') =>
        (Ok (Some spark_df,
             {| _spark_df := Some spark_df;
                _is_spark_df_retrievable := _is_spark_df_retrievable self;
                _dataset_identity := _dataset_identity self;
                branch := branch self |}), s')
    | (Raise e, s') => (Raise e, s')
    end.
Proof.
  intros Hon Hr Hn. unfold dataframe. rewrite Hr, Hn. plumbing. simpl.
  rewrite Hon. simpl.
  destruct (_retrieve_spark_df ctx (_dataset_identity self) (branch self) s)
    as [[df | e] s']; reflexivity.
Qed.

(** C5, amended: an online Input with a schema that already holds a
    dataframe returns that dataframe from dataframe(), touching nothing.  One
    that holds none yet returns the dataframe the cache holds for the
    identity when the identity is among the cache keys, leaving cache and
    world alone.  Otherwise it fetches: by the sampling query (not forced,
    size not below the threshold), and then the module stores the dataframe
    the query gave in the cache under the identity and returns it; or by the
    full download (forced, or size below the threshold), and then it returns
    what load_dataset returned and writes nothing to the cache itself: the
    cache is as load_dataset left it, so with a client that caches what it
    loads the dataframe returned is in the cache under the identity. *)
Theorem dataframe_cache_or_fetch (self : Input DF) (s : State DF W) :
  transforms_freeze_cache (config s) = false ->
  _is_spark_df_retrievable self = true ->
  let dataset_identity := _dataset_identity self in
  let result := dataframe ctx self s in
  let memoised (spark_df : DF) :=
    {| _spark_df := Some spark_df;
       _is_spark_df_retrievable := true;
       _dataset_identity := dataset_identity;
       branch := branch self |} in
  (forall spark_df,
     _spark_df self = Some spark_df -> result = (Ok (Some spark_df, self), s))
  /\ (_spark_df self = None ->
      (contains dataset_identity (cache_keys (cache s)) = true
       <-> exists spark_df, cache_lookup dataset_identity (cache s) = Some spark_df)
      /\ (forall spark_df,
            cache_lookup dataset_identity (cache s) = Some spark_df ->
            result
            = (Ok (Some spark_df, memoised spark_df),
               logged [Cached CacheKeys;
                       Debug (LogReturningFromCache dataset_identity (branch self));
                       Cached (CacheGetItem dataset_identity)] s))
      /\ (forall n s1,
            contains dataset_identity (cache_keys (cache s)) = false ->
            (LOGGER_debug (LogCachingData dataset_identity (branch self)) ;;;
             _size_in_bytes ctx dataset_identity) (logged [Cached CacheKeys] s)
            = (Ok n, s1) ->
            let full :=
              transforms_force_full_dataset_download (config s)
              || Qltb (mega_bytes n)
                   (transforms_sql_dataset_size_threshold (config s)) in
            let query :=
              sampled_sql (dataset_path dataset_identity)
                (transforms_sql_sample_select_random (config s))
                (transforms_sql_sample_row_limit (config s)) in
            (full = false ->
             forall spark_df w',
               rest_query_foundry_sql client query (branch self) SPARK (world s1)
               = (Ok spark_df, w') ->
               fst result = Ok (Some spark_df, memoised spark_df)
               /\ cache (snd result) = cache_store dataset_identity spark_df (cache s)
               /\ cache_lookup dataset_identity (cache (snd result)) = Some spark_df
               /\ exists evs,
                    trace (snd result)
                    = trace s ++ evs ++ [Cached (CacheSetItem dataset_identity)])
            /\ (full = true ->
                forall r w' c',
                  cfc_load_dataset cached_client (dataset_rid dataset_identity)
                    (branch self) (world s1) (cache s) = (r, w', c') ->
                  cache (snd result) = c'
                  /\ (forall spark_df, r = Ok spark_df ->
                        fst result = Ok (Some spark_df, memoised spark_df)
                        /\ (load_dataset_caches cached_client dataset_identity ->
                            cache_lookup dataset_identity (cache (snd result))
                            = Some spark_df))
                  /\ (forall e, r = Raise e -> fst result = Raise e)
                  /\ exists evs,
                       trace (snd result) = trace s ++ evs
                       /\ existsb is_cache_store evs = false))).
Proof.
  intros Hon Hr dataset_identity result memoised. split.
  { intros df Hsome. subst result. unfold dataframe. rewrite Hr, Hsome.
    reflexivity. }
  intro Hn.
  subst result. rewrite (dataframe_online _ _ Hon Hr Hn).
  fold dataset_identity. subst memoised. rewrite Hr.
  split; [apply contains_keys_lookup | split].
  - intros df Hhit. rewrite (retrieve_spark_df_hit _ _ _ _ Hhit). reflexivity.
  - intros n s1 Hmiss H full query.
    destruct (size_step_keeps _ _ _ _ _ H) as (_ & _ & evs0 & Ht & _ & _ & _ & Hst).
    rewrite (retrieve_spark_df_miss _ _ _ Hmiss).
    rewrite (retrieve_uncached_run _ _ _ _ _ H).
    cbv zeta. cbn [logged config world cache trace] in *.
    fold full query. split; intro Hfull; rewrite Hfull.
    + intros df w' Hquery. rewrite Hquery. simpl.
      refine (conj eq_refl (conj eq_refl (conj (cache_lookup_store _ _ _) _))).
      rewrite Ht, <- !app_assoc. simpl.
      match goal with
      | |- exists evs, _ ++ _ :: _ ++ [?a; ?b; ?c; ?d; _] = _ =>
          exists (Cached CacheKeys :: evs0 ++ [a; b; c; d])
      end.
      simpl. rewrite <- !app_assoc. reflexivity.
    + intros r w' c' Hload. rewrite Hload.
      destruct r as [df | e]; simpl;
        (refine (conj eq_refl (conj _ (conj _ _)));
         [ intros df' E; inversion E; subst;
           (split; [ reflexivity | intro Hcaches; exact (Hcaches _ _ _ _ _ _ Hload) ])
         | intros e' E; inversion E; reflexivity
         | eexists; split; [rewrite Ht, <- !app_assoc; reflexivity | ];
           rewrite !existsb_app, Hst; reflexivity ]).
Qed.


Lemma filter_none {A : Type} (f : A -> bool) (l : list A) :
  existsb f l = false -> filter f l = [].
Proof.
  induction l as [ | a l IH ]; simpl; [reflexivity | ].
  destruct (f a); simpl; [discriminate | exact IH].
Qed.


End DatasetFacts.

(** ** The code at work in the small world *)

Import Scenario.

Example branch_of_the_checkout :
  fst (_requested_branch (context (sales MiB) true) None "transform.py" online)
  = Ok "feature".
Proof. reflexivity. Qed.

Example online_construction :
  fst (Input__init__ (context (sales MiB) true) "/Global/data/sales" (Some "master")
         "transform.py" online)
  = Ok (an_input MiB).
Proof. reflexivity. Qed.

Example cached_dataframe_is_returned :
  let s :=
    {| config := settings false false 500; world := 0%nat;
       cache := [(sales MiB, "cached rows")]; trace := [] |} in
  fst (dataframe (context (sales MiB) true) (an_input MiB) s)
  = Ok (Some "cached rows",
        {| _spark_df := Some "cached rows"; _is_spark_df_retrievable := true;
           _dataset_identity := sales MiB; branch := "master" |}).
Proof. reflexivity. Qed.

(** C1, as stated, fails: with transforms_force_full_dataset_download set,
    an online retrieval of a 3 megabyte dataset that is not in the cache,
    against a threshold of 1 megabyte, is a full download: load_dataset is
    called, no query is submitted and no warning is emitted. *)
Lemma forced_download_above_threshold :
  let s := start (settings false true 1) in
  let dataset_identity := sales (3 * MiB) in
  let result :=
    _retrieve_spark_df (context dataset_identity true) dataset_identity "master" s in
  contains dataset_identity (cache_keys (cache s)) = false
  /\ (transforms_sql_dataset_size_threshold (config s) < mega_bytes (3 * MiB))%Q
  /\ fst result = Ok "all rows"
  /\ existsb is_load_dataset (trace (snd result)) = true
  /\ existsb is_query (trace (snd result)) = false
  /\ existsb is_warning (trace (snd result)) = false.
Proof. vm_compute. repeat split. Qed.

(** C3, as stated, fails: offline, the cache hands the constructor an
    identity whose last_transaction_rid is None; the constructor goes on to
    ask the cache whether the dataset has a schema and returns an Input. *)
Lemma offline_no_transactions_no_error :
  let result :=
    Input__init__ (context never_written true) "/Global/data/empty" (Some "dev")
      "transform.py" offline in
  last_transaction_rid never_written = None
  /\ fst result
     = Ok {| _spark_df := None; _is_spark_df_retrievable := true;
             _dataset_identity := never_written; branch := "dev" |}
  /\ existsb is_schema_lookup (trace (snd result)) = true.
Proof. vm_compute. repeat split. Qed.


(** C5, as stated, fails for an Input that already holds a dataframe.  An
    online Input on a 600 megabyte dataset with a schema samples it on its
    first dataframe() call.  When the cache is emptied from outside
    afterwards, the identity is not among the cache keys, yet dataframe()
    fetches nothing and stores nothing: it returns the sample it holds and
    the identity is still missing from the cache.  When the cache is
    filled with another dataframe for the identity instead, dataframe()
    does not return the one stored in the cache but, again, its own. *)
Lemma memoised_dataframe_ignores_the_cache :
  let dataset_identity := sales (600 * MiB) in
  let ctx := context dataset_identity true in
  let sample := "SELECT * FROM `/Global/data/sales` LIMIT 5000" in
  let self :=
    {| _spark_df := Some sample; _is_spark_df_retrievable := true;
       _dataset_identity := dataset_identity; branch := "master" |} in
  let first := dataframe ctx (an_input (600 * MiB)) online in
  let emptied :=
    {| config := config (snd first); world := world (snd first);
       cache := []; trace := trace (snd first) |} in
  let refilled :=
    {| config := config (snd first); world := world (snd first);
       cache := [(dataset_identity, "all rows")]; trace := trace (snd first) |} in
  fst first = Ok (Some sample, self)
  /\ transforms_freeze_cache (config emptied) = false
  /\ _is_spark_df_retrievable self = true
  /\ contains dataset_identity (cache_keys (cache emptied)) = false
  /\ dataframe ctx self emptied = (Ok (Some sample, self), emptied)
  /\ cache_lookup dataset_identity (cache (snd (dataframe ctx self emptied))) = None
  /\ contains dataset_identity (cache_keys (cache refilled)) = true
  /\ cache_lookup dataset_identity (cache refilled) = Some "all rows"
  /\ fst (dataframe ctx self refilled) = Ok (Some sample, self)
  /\ sample <> "all rows".
Proof. vm_compute. repeat split. discriminate. Qed.

(** C2 at work: the dataset is asked for on branch feature, where the
    platform does not know it. *)
Lemma branch_not_found_retries_on_master_run :
  let ctx := context (sales MiB) true in
  let s0 := logged [Debug (LogInputInstantiated "transform.py")] online in
  transforms_freeze_cache (config online) = false
  /\ _requested_branch ctx (Some "feature") "transform.py" online = (Ok "feature", s0)
  /\ rest_get_dataset_identity (foundry_rest_client ctx) "/Global/data/sales" "feature"
       (world s0) = (Raise BranchNotFoundError, 1%nat)
  /\ exists inp,
       fst (Input__init__ ctx "/Global/data/sales" (Some "feature") "transform.py" online)
       = Ok inp
       /\ branch inp = "master" /\ _dataset_identity inp = sales MiB.
Proof.
  refine (conj eq_refl (conj eq_refl (conj eq_refl _))).
  destruct (branch_not_found_retries_on_master (context (sales MiB) true)
              "/Global/data/sales" (Some "feature") "transform.py" online
              (logged [Debug (LogInputInstantiated "transform.py")] online)
              "feature" 1%nat eq_refl eq_refl eq_refl)
    as (evs & _ & _ & _ & _ & Hsuccess).
  apply Hsuccess.
  - reflexivity.
  - discriminate.
  - intros e H. vm_compute in H. discriminate.
Defined.

(** C3 (amended) at work: online, a dataset that was never written to. *)
Lemma no_transactions_raises_online_run :
  let ctx := context never_written true in
  let s0 := logged [Debug (LogInputInstantiated "transform.py")] online in
  let s1 :=
    {| config := config online; world := 1%nat; cache := [];
       trace := [Debug (LogInputInstantiated "transform.py");
                 Rest (GetDatasetIdentity "/Global/data/empty" "master")] |} in
  transforms_freeze_cache (config online) = false
  /\ _requested_branch ctx (Some "master") "transform.py" online = (Ok "master", s0)
  /\ _resolve_identity ctx "/Global/data/empty" "master" s0
     = (Ok (never_written, "master"), s1)
  /\ last_transaction_rid never_written = None
  /\ Input__init__ ctx "/Global/data/empty" (Some "master") "transform.py" online
     = (Raise (DatasetHasNoTransactionsError "/Global/data/empty"), s1).
Proof.
  refine (conj eq_refl (conj eq_refl (conj eq_refl (conj eq_refl _)))).
  exact (proj1 (no_transactions_raises_online (context never_written true)
                  "/Global/data/empty" (Some "master") "transform.py" online _ _
                  "master" "master" never_written eq_refl eq_refl eq_refl eq_refl)).
Defined.


(** C9 at work: offline, the branch asked for is kept and no transaction is
    asked of the identity. *)
Lemma offline_resolves_from_cache_run :
  let ctx := context never_written true in
  let s0 := logged [Debug (LogInputInstantiated "transform.py")] offline in
  transforms_freeze_cache (config offline) = true
  /\ _requested_branch ctx (Some "dev") "transform.py" offline = (Ok "dev", s0)
  /\ fst (Input__init__ ctx "/Global/data/empty" (Some "dev") "transform.py" offline)
     = Ok {| _spark_df := None; _is_spark_df_retrievable := true;
             _dataset_identity := never_written; branch := "dev" |}.
Proof.
  refine (conj eq_refl (conj eq_refl _)).
  exact (proj1 (offline_resolves_from_cache (context never_written true)
                  "/Global/data/empty" (Some "dev") "transform.py" offline
                  (logged [Debug (LogInputInstantiated "transform.py")] offline)
                  "dev" eq_refl eq_refl)).
Defined.

(** C7 at work. *)
Lemma identity_and_branch_are_frozen_run :
  let ctx := context (sales MiB) true in
  let ops :=
    [OpDataframe; OpGetLocalPathToDataset; Outside (fun s => logged [] s);
     OpGetDatasetIdentity; OpDataframe] in
  _dataset_identity (fst (run ctx ops (an_input MiB) online)) = sales MiB
  /\ branch (fst (run ctx ops (an_input MiB) online)) = "master".
Proof.
  exact (proj1 (identity_and_branch_are_frozen (context (sales MiB) true)
                  [OpDataframe; OpGetLocalPathToDataset; Outside (fun s => logged [] s);
                   OpGetDatasetIdentity; OpDataframe]
                  (an_input MiB) online)).
Defined.


(** C1 (amended) at work: 3 megabytes against a threshold of 1. *)
Lemma uncached_retrieval_by_size_run :
  let s := start (settings false false 1) in
  let dataset_identity := sales (3 * MiB) in
  let ctx := context dataset_identity true in
  let s1 :=
    logged [Cached CacheKeys; Debug (LogCachingData dataset_identity "master")] s in
  contains dataset_identity (cache_keys (cache s)) = false
  /\ bind (LOGGER_debug (LogCachingData dataset_identity "master"))
       (fun _ => _size_in_bytes ctx dataset_identity) (logged [Cached CacheKeys] s)
     = (Ok (3 * MiB)%Z, s1)
  /\ (transforms_sql_dataset_size_threshold (config s) < mega_bytes (3 * MiB))%Q
  /\ exists evs,
       trace (snd (_retrieve_spark_df ctx dataset_identity "master" s)) = trace s ++ evs
       /\ existsb is_query evs = true
       /\ existsb is_warning evs = true
       /\ existsb is_load_dataset evs = false.
Proof.
  refine (conj eq_refl (conj eq_refl (conj eq_refl _))).
  destruct (uncached_retrieval_by_size (context (sales (3 * MiB)) true)
              (sales (3 * MiB)) "master" (start (settings false false 1))
              (logged [Cached CacheKeys; Debug (LogCachingData (sales (3 * MiB)) "master")]
                 (start (settings false false 1)))
              (3 * MiB)%Z eq_refl eq_refl)
    as (evs & Htrace & _ & Habove & _).
  exists evs. split; [exact Htrace | ].
  destruct (Habove eq_refl eq_refl) as (Hq & Hw & Hl & _).
  auto.
Defined.

(** C5 (amended) at work: 1 megabyte against a threshold of 500 is
    downloaded in full by a client that caches what it loads, 600 megabytes
    are sampled; either way the dataframe returned ends up in the cache. *)
Lemma dataframe_cache_or_fetch_run :
  let ctx (size : Z) := context (sales size) true in
  let sample := "SELECT * FROM `/Global/data/sales` LIMIT 5000" in
  transforms_freeze_cache (config online) = false
  /\ _is_spark_df_retrievable (an_input MiB) = true
  /\ _is_spark_df_retrievable (an_input (600 * MiB)) = true
  /\ load_dataset_caches (cached_foundry_client (ctx MiB)) (sales MiB)
  /\ (exists self', fst (dataframe (ctx MiB) (an_input MiB) online)
                    = Ok (Some "all rows", self'))
  /\ cache_lookup (sales MiB)
       (cache (snd (dataframe (ctx MiB) (an_input MiB) online)))
     = Some "all rows"
  /\ cache_lookup (sales (600 * MiB))
       (cache (snd (dataframe (ctx (600 * MiB)%Z) (an_input (600 * MiB)) online)))
     = Some sample.
Proof.
  assert (Hcaches : load_dataset_caches
                      (cached_foundry_client (context (sales MiB) true)) (sales MiB)).
  { intros b w c df w' c' H. inversion H. apply cache_lookup_store. }
  refine (conj eq_refl (conj eq_refl (conj eq_refl (conj Hcaches _)))).
  destruct (dataframe_cache_or_fetch (context (sales MiB) true)
              (an_input MiB) online eq_refl eq_refl) as [_ Hfresh].
  destruct (Hfresh eq_refl) as (_ & _ & Hmiss).
  destruct (Hmiss MiB
              (logged [Cached CacheKeys; Debug (LogCachingData (sales MiB) "master")]
                 online)
              eq_refl eq_refl) as [_ Hfull].
  destruct (Hfull eq_refl (Ok "all rows") 0%nat
              (cache_store (sales MiB) "all rows" []) eq_refl)
    as (_ & Hloaded & _).
  destruct (Hloaded "all rows" eq_refl) as [Hresult Hstored].
  split; [eexists; exact Hresult | ].
  split; [exact (Hstored Hcaches) | ].
  destruct (dataframe_cache_or_fetch (context (sales (600 * MiB)) true)
              (an_input (600 * MiB)) online eq_refl eq_refl) as [_ Hfresh'].
  destruct (Hfresh' eq_refl) as (_ & _ & Hmiss').
  destruct (Hmiss' (600 * MiB)%Z
              (logged [Cached CacheKeys;
                       Debug (LogCachingData (sales (600 * MiB)) "master")] online)
              eq_refl eq_refl) as [Hsampled _].
  destruct (Hsampled eq_refl "SELECT * FROM `/Global/data/sales` LIMIT 5000" 1%nat
              eq_refl) as (_ & _ & Hstored' & _).
  exact Hstored'.
Defined.


(** * Further facts

    What else the code shows, beyond the behaviours examined above. *)

(** ** _as_list *)

(** X16: normalising is idempotent.  Handing the list [_as_list] returned
    back to it gives the same list, so building an UnmarkingDef from the
    fields of an UnmarkingDef gives that UnmarkingDef again. *)
Theorem as_list_idempotent (x y : PyVal) :
  _as_list (PyList (_as_list x)) = _as_list x
  /\ let u := UnmarkingDef__init__ x y in
     UnmarkingDef__init__ (PyList (marking_ids u)) (PyList (branches u)) = u.
Proof.
  assert (H : forall v, _as_list (PyList (_as_list v)) = _as_list v).
  { intro v. rewrite (as_list_cases (PyList _)). reflexivity. }
  split; [apply H | ].
  unfold UnmarkingDef__init__. simpl. rewrite !H. reflexivity.
Qed.

(** X17: the list stored is empty exactly when the argument is falsy (None,
    False, 0, the empty string, the empty list); whatever is truthy leaves
    at least one element. *)
Theorem as_list_empty_iff_falsy (x : PyVal) :
  _as_list x = [] <-> truthy x = false.
Proof.
  rewrite as_list_cases.
  destruct x as [ | b | z | s | l ]; simpl.
  - tauto.
  - destruct b; split; intro H; try reflexivity; discriminate.
  - destruct (Z.eqb z 0); simpl; split; intro H; try reflexivity; discriminate.
  - destruct (String.eqb s ""); simpl; split; intro H; try reflexivity; discriminate.
  - destruct l; split; intro H; try reflexivity; discriminate.
Qed.

(** ** Strings: strip, startswith, slices, split *)




Lemma substring_all (s : string) : String.substring 0 (String.length s) s = s.
Proof. induction s as [ | c s IH ]; simpl; [reflexivity | now rewrite IH]. Qed.



Lemma split_on_plain (sep : ascii) (name : string) :
  existsb (fun c => Ascii.eqb c sep) (list_ascii_of_string name) = false ->
  split_on sep name = [name].
Proof.
  induction name as [ | c name IH ]; simpl; [reflexivity | ].
  intro H. apply orb_false_iff in H. destruct H as [Hc Hn].
  rewrite Hc, (IH Hn). reflexivity.
Qed.

Lemma split_on_two (sep : ascii) (a b : string) :
  exists h h' t, split_on sep (a ++ String sep b) = h :: h' :: t.
Proof.
  induction a as [ | c a IH ]; simpl.
  - rewrite Ascii.eqb_refl.
    destruct b as [ | c b ]; simpl; [eauto | ].
    destruct (Ascii.eqb c sep); [eauto | ].
    destruct (split_on sep b); eauto.
  - destruct IH as (h & h' & t & E). rewrite E.
    destruct (Ascii.eqb c sep); eauto.
Qed.

Lemma last_split_app (sep : ascii) (a b : string) :
  last_item (split_on sep (a ++ String sep b)) = last_item (split_on sep b).
Proof.
  unfold last_item.
  induction a as [ | c a IH ]; simpl.
  - rewrite Ascii.eqb_refl.
    destruct (split_on sep b) eqn:E; [ | reflexivity].
    destruct b as [ | c b ]; simpl in E; [discriminate | ].
    destruct (Ascii.eqb c sep); [discriminate | ].
    destruct (split_on sep b); discriminate.
  - destruct (split_on_two sep a b) as (h & h' & t & E).
    rewrite E in *. destruct (Ascii.eqb c sep); exact IH.
Qed.

Lemma prefix_slice (a s : string) :
  String.prefix a s = true -> s = (a ++ slice_from (String.length a) s)%string.
Proof.
  revert s. induction a as [ | c a IH ]; intros s H.
  - unfold slice_from. simpl. rewrite Nat.sub_0_r, substring_all. reflexivity.
  - destruct s as [ | c' s ]; simpl in H; [discriminate | ].
    destruct (ascii_dec c c') as [-> | ]; [ | discriminate].
    simpl. f_equal. exact (IH s H).
Qed.

(** ** The Input class, further *)

Section MoreDatasetFacts.

Context {DF W : Type}.
Variable ctx : FoundryContext DF W.

Notation "x <- m ;; k" := (bind m (fun x => k))
  (at level 100, m at next level, right associativity).
Notation "m ;;; k" := (bind m (fun _ => k))
  (at level 100, right associativity).

Let client := foundry_rest_client ctx.
Let cached_client := cached_foundry_client ctx.

Ltac plumbing :=
  unfold _is_online, cache_keys_call, cache_getitem, cache_setitem,
    LOGGER_debug, warnings_warn in *;
  unfold bind, ret, raise, try_except, emit, get_config, get_world,
    rest_call, cached_call in *.

(** *** _get_branch *)


(** *** The constructor *)

Lemma resolve_identity_run (alias requested : string) (s0 : State DF W) :
  _resolve_identity ctx alias requested s0
  = match rest_get_dataset_identity client alias requested (world s0) with
    | (Ok i, w1) =>
        (Ok (i, requested),
         {| config := config s0; world := w1; cache := cache s0;
            trace := trace s0 ++ [Rest (GetDatasetIdentity alias requested)] |})
    | (Raise BranchNotFoundError, w1) =>
        let tr :=
          trace s0 ++ [Rest (GetDatasetIdentity alias requested);
                       Debug (LogFallingBackToMaster alias requested);
                       Rest (GetDatasetIdentity alias "master")] in
        match rest_get_dataset_identity client alias "master" w1 with
        | (Ok i, w2) =>
            (Ok (i, "master"),
             {| config := config s0; world := w2; cache := cache s0; trace := tr |})
        | (Raise e, w2) =>
            (Raise e,
             {| config := config s0; world := w2; cache := cache s0; trace := tr |})
        end
    | (Raise e, w1) =>
        (Raise e,
         {| config := config s0; world := w1; cache := cache s0;
            trace := trace s0 ++ [Rest (GetDatasetIdentity alias requested)] |})
    end.
Proof.
  unfold _resolve_identity. plumbing. simpl. fold client.
  destruct (rest_get_dataset_identity client alias requested (world s0))
    as [[i | e] w1]; simpl; [reflexivity | ].
  destruct e; simpl; try reflexivity.
  destruct (rest_get_dataset_identity client alias "master" w1) as [[i | e] w2];
    simpl; rewrite <- !app_assoc; reflexivity.
Qed.

Lemma dataset_has_schema_run (i : DatasetIdentity) (b : string) (s : State DF W) :
  _dataset_has_schema ctx i b s
  = let call := GetDatasetSchema (dataset_rid i) (last_transaction_rid i) b in
    match rest_get_dataset_schema client (dataset_rid i) (last_transaction_rid i) b
            (world s) with
    | (r, w) =>
        (match r with
         | Ok _ => Ok true
         | Raise DatasetHasNoSchemaError => Ok false
         | Raise e => Raise e
         end,
         {| config := config s; world := w; cache := cache s;
            trace := trace s ++ [Rest call] |})
    end.
Proof.
  unfold _dataset_has_schema. plumbing. simpl. fold client.
  destruct (rest_get_dataset_schema client (dataset_rid i) (last_transaction_rid i) b
              (world s)) as [[[] | e] w]; simpl; [reflexivity | ].
  destruct e; reflexivity.
Qed.

Lemma online_events (alias requested : string) (s0 s1 : State DF W)
  (r : Result (bool * DatasetIdentity * string)) :
  _online ctx alias requested s0 = (r, s1) ->
  cache s1 = cache s0
  /\ (exists evs,
        trace s1 = trace s0 ++ evs
        /\ existsb is_data_retrieval evs = false
        /\ existsb is_cache_store evs = false)
  /\ (forall retrievable i b, r = Ok (retrievable, i, b) ->
        last_transaction_rid i <> None).
Proof.
  unfold _online, bind at 1. rewrite resolve_identity_run.
  assert (Hafter : forall i b w tr (r' : Result (bool * DatasetIdentity * string)) s',
            match last_transaction_rid i with
            | Some _ =>
                has_schema <- _dataset_has_schema ctx i b ;;
                (if has_schema then ret (true, i, b)
                 else
                   LOGGER_debug (LogNoSchema (dataset_rid i) (dataset_path i) b) ;;;
                   ret (false, i, b))
            | None => raise (DatasetHasNoTransactionsError alias)
            end {| config := config s0; world := w; cache := cache s0; trace := tr |}
            = (r', s') ->
            cache s' = cache s0
            /\ (exists evs,
                  trace s' = tr ++ evs
                  /\ existsb is_data_retrieval evs = false
                  /\ existsb is_cache_store evs = false)
            /\ (forall retrievable i' b', r' = Ok (retrievable, i', b') ->
                  last_transaction_rid i' <> None)).
  { intros i b w tr r' s'.
    destruct (last_transaction_rid i) as [t | ] eqn:Ht.
    - unfold bind at 1. rewrite dataset_has_schema_run. cbv zeta.
      cbn [config world cache trace].
      destruct (rest_get_dataset_schema client (dataset_rid i) (last_transaction_rid i) b w)
        as [[[] | e] w']; [ | destruct e ]; plumbing; simpl;
        intro H; inversion H; subst; simpl;
        (split; [reflexivity | split;
           [ eexists; split; [rewrite <- ?app_assoc; reflexivity | split; reflexivity]
           | intros ? ? ? E; inversion E; subst; congruence ]]).
    - unfold raise. intro H. inversion H; subst; simpl.
      split; [reflexivity | split].
      + exists []. rewrite app_nil_r. repeat split.
      + discriminate. }
  destruct (rest_get_dataset_identity client alias requested (world s0))
    as [[i | e] w1].
  - intro H. apply Hafter in H. destruct H as (Hc & (evs & Ht & Hd & Hst) & Hi).
    split; [exact Hc | split; [ | exact Hi]].
    exists (Rest (GetDatasetIdentity alias requested) :: evs).
    rewrite Ht, <- app_assoc. simpl. auto.
  - assert (Hplain : forall e' w',
              (Raise e' : Result (bool * DatasetIdentity * string),
               {| config := config s0; world := w'; cache := cache s0;
                  trace := trace s0 ++ [Rest (GetDatasetIdentity alias requested)] |})
              = (r, s1) ->
              cache s1 = cache s0
              /\ (exists evs,
                    trace s1 = trace s0 ++ evs
                    /\ existsb is_data_retrieval evs = false
                    /\ existsb is_cache_store evs = false)
              /\ (forall retrievable i b, r = Ok (retrievable, i, b) ->
                    last_transaction_rid i <> None)).
    { intros e' w' H. inversion H; subst; simpl.
      split; [reflexivity | split; [ | discriminate]].
      eexists. repeat split. }
    destruct e; try (apply Hplain).
    cbv zeta.
    destruct (rest_get_dataset_identity client alias "master" w1) as [[i | e] w2].
    + intro H. apply Hafter in H. destruct H as (Hc & (evs & Ht & Hd & Hst) & Hi).
      split; [exact Hc | split; [ | exact Hi]].
      exists ([Rest (GetDatasetIdentity alias requested);
               Debug (LogFallingBackToMaster alias requested);
               Rest (GetDatasetIdentity alias "master")] ++ evs).
      rewrite Ht, <- app_assoc, !existsb_app, Hd, Hst. auto.
    + intro H. inversion H; subst; simpl.
      split; [reflexivity | split; [ | discriminate]].
      eexists. repeat split.
Qed.

Lemma offline_events (alias requested : string) (s0 s1 : State DF W)
  (r : Result (bool * DatasetIdentity * string)) :
  _offline ctx alias requested s0 = (r, s1) ->
  exists evs,
    trace s1 = trace s0 ++ evs
    /\ existsb is_data_retrieval evs = false
    /\ existsb is_cache_store evs = false.
Proof.
  unfold _offline. plumbing. simpl. fold cached_client.
  destruct (cache_get_dataset_identity_not_branch_aware cached_client alias
              (world s0) (cache s0)) as [[[i | e] w1] c1]; simpl.
  - destruct (cache_dataset_has_schema cached_client i w1 c1) as [[[h | e] w2] c2];
      simpl; [destruct h | ]; intro H; inversion H; subst; simpl;
      (eexists; split; [rewrite <- !app_assoc; reflexivity | split; reflexivity]).
  - intro H. inversion H; subst; simpl. eexists. repeat split.
Qed.

Lemma init_branch_error (alias : string) (ob : option string) (caller : string)
  (s s0 : State DF W) (e : Exception) :
  _requested_branch ctx ob caller s = (Raise e, s0) ->
  Input__init__ ctx alias ob caller s = (Raise e, s0).
Proof.
  intro H. unfold Input__init__, bind at 1. rewrite H. reflexivity.
Qed.

(** X6: a checkout that cannot be read stops the constructor, when the
    constructor needs it.  Without a branch argument, an exception raised
    by git_toplevel_dir, by Path.cwd() or while the HEAD file is opened and
    read is raised by the constructor, right after the "Input
    instantiated" record and before the platform or the cache is asked for
    anything.  With a branch argument the constructor does not look at the
    checkout: it gives the same result and state whatever git_toplevel_dir
    and the file system answer. *)
Theorem unreadable_checkout_stops_construction
  (alias caller_filename : string) (s : State DF W) :
  (forall e,
     git_toplevel_dir ctx caller_filename (world s) = Raise e
     \/ (git_toplevel_dir ctx caller_filename (world s) = Ok None
         /\ path_cwd ctx (world s) = Raise e)
     \/ (exists git_dir,
           (git_toplevel_dir ctx caller_filename (world s) = Ok (Some git_dir)
            \/ (git_toplevel_dir ctx caller_filename (world s) = Ok None
                /\ path_cwd ctx (world s) = Ok git_dir))
           /\ read_if_file ctx (git_dir ++ "/.git/HEAD")%string (world s) = Raise e) ->
     Input__init__ ctx alias None caller_filename s
     = (Raise e, logged [Debug (LogInputInstantiated caller_filename)] s))
  /\ (forall branch (other : FoundryContext DF W),
        foundry_rest_client other = foundry_rest_client ctx ->
        cached_foundry_client other = cached_foundry_client ctx ->
        is_dataset_a_view other = is_dataset_a_view ctx ->
        Input__init__ other alias (Some branch) caller_filename s
        = Input__init__ ctx alias (Some branch) caller_filename s).
Proof.
  split.
  - intros e H. apply init_branch_error.
    unfold _requested_branch, _get_branch, world_read. plumbing.
    cbv beta iota zeta. cbn [config world cache trace]. unfold logged.
    destruct H as [Hgit | [[Hgit Hcwd] | (d & [Hgit | [Hgit Hcwd]] & Hread)]];
      rewrite Hgit; cbv beta iota zeta; cbn [config world cache trace];
      rewrite ?Hcwd; cbv beta iota zeta; cbn [config world cache trace];
      rewrite ?Hread; reflexivity.
  - intros b other Hrest Hcached Hview.
    destruct ctx, other. cbn in Hrest, Hcached, Hview. subst.
    reflexivity.
Qed.

(** X1: constructing an Input downloads nothing.  Whatever the arguments
    and the mode, the constructor makes no call that brings data in (no
    load_dataset, no file fetch, no SQL query, no statistics, no read of
    the cache mapping) and writes nothing into the cache mapping; online it
    leaves the cache as it was; and the Input it returns holds no
    dataframe. *)
Theorem construction_retrieves_nothing
  (alias : string) (ob : option string) (caller : string) (s : State DF W) :
  let result := Input__init__ ctx alias ob caller s in
  (exists evs,
     trace (snd result) = trace s ++ evs
     /\ existsb is_data_retrieval evs = false
     /\ existsb is_cache_store evs = false)
  /\ (forall inp, fst result = Ok inp -> _spark_df inp = None)
  /\ (transforms_freeze_cache (config s) = false -> cache (snd result) = cache s).
Proof.
  intro result.
  destruct (requested_branch_runs ctx ob caller s)
    as (r0 & evs0 & E & _ & _ & Hd0 & _ & _ & Hs0).
  destruct r0 as [requested | e0].
  2: { subst result. rewrite (init_branch_error _ _ _ _ _ _ E). simpl.
       split; [exists evs0; auto | split; [discriminate | reflexivity]]. }
  subst result. rewrite (init_after_branch ctx _ _ _ _ _ _ E).
  destruct (negb (transforms_freeze_cache (config s))) eqn:Hmode.
  - destruct (_online ctx alias requested _) as [r s1] eqn:Hrun.
    destruct (online_events _ _ _ _ _ Hrun) as (Hc & (evs & Ht & Hd & Hst) & _).
    assert (Hsnd : snd (build (r, s1)) = s1)
      by (destruct r as [[[? ?] ?] | ?]; reflexivity).
    rewrite Hsnd. simpl in Ht, Hc.
    split; [ | split].
    + exists (evs0 ++ evs). rewrite Ht, app_assoc, !existsb_app, Hd0, Hs0, Hd, Hst. auto.
    + destruct r as [[[? ?] ?] | ?]; simpl; intros inp H; inversion H; reflexivity.
    + intros _. exact Hc.
  - destruct (_offline ctx alias requested _) as [r s1] eqn:Hrun.
    destruct (offline_events _ _ _ _ _ Hrun) as (evs & Ht & Hd & Hst).
    assert (Hsnd : snd (build (r, s1)) = s1)
      by (destruct r as [[[? ?] ?] | ?]; reflexivity).
    rewrite Hsnd. simpl in Ht.
    split; [ | split].
    + exists (evs0 ++ evs). rewrite Ht, app_assoc, !existsb_app, Hd0, Hs0, Hd, Hst. auto.
    + destruct r as [[[? ?] ?] | ?]; simpl; intros inp H; inversion H; reflexivity.
    + intro Hon. rewrite Hon in Hmode. discriminate.
Qed.

Lemma online_after_resolution (alias requested b : string) (s0 s1 : State DF W)
  (i : DatasetIdentity) :
  _resolve_identity ctx alias requested s0 = (Ok (i, b), s1) ->
  _online ctx alias requested s0
  = match last_transaction_rid i with
    | None => (Raise (DatasetHasNoTransactionsError alias), s1)
    | Some _ =>
        match rest_get_dataset_schema client (dataset_rid i) (last_transaction_rid i) b
                (world s1) with
        | (r, w2) =>
            let tr :=
              trace s1
              ++ [Rest (GetDatasetSchema (dataset_rid i) (last_transaction_rid i) b)] in
            match r with
            | Ok _ =>
                (Ok (true, i, b),
                 {| config := config s1; world := w2; cache := cache s1; trace := tr |})
            | Raise DatasetHasNoSchemaError =>
                (Ok (false, i, b),
                 {| config := config s1; world := w2; cache := cache s1;
                    trace := tr ++ [Debug (LogNoSchema (dataset_rid i) (dataset_path i) b)] |})
            | Raise e =>
                (Raise e,
                 {| config := config s1; world := w2; cache := cache s1; trace := tr |})
            end
        end
    end.
Proof.
  intro Hres. unfold _online, bind at 1. rewrite Hres.
  destruct (last_transaction_rid i) as [t | ] eqn:Ht; [ | reflexivity].
  unfold bind at 1. rewrite dataset_has_schema_run. cbv zeta. fold client.
  rewrite Ht.
  destruct (rest_get_dataset_schema client (dataset_rid i) (Some t) b (world s1))
    as [[[] | e] w2]; [reflexivity | ].
  destruct e; reflexivity.
Qed.

(** X2: only a branch-not-found error is answered with the fallback.  When
    the first identity lookup of an online construction raises anything
    else, the constructor raises that exception at once: no second lookup,
    no log record about a fallback, nothing else called. *)
Theorem other_lookup_errors_are_not_retried
  (alias : string) (ob : option string) (caller : string)
  (s s0 : State DF W) (requested : string) (e : Exception) (w1 : W) :
  transforms_freeze_cache (config s) = false ->
  _requested_branch ctx ob caller s = (Ok requested, s0) ->
  rest_get_dataset_identity client alias requested (world s0) = (Raise e, w1) ->
  e <> BranchNotFoundError ->
  Input__init__ ctx alias ob caller s
  = (Raise e,
     {| config := config s0; world := w1; cache := cache s0;
        trace := trace s0 ++ [Rest (GetDatasetIdentity alias requested)] |}).
Proof.
  intros Hon Hreq Hfirst Hne.
  rewrite (init_after_branch ctx _ _ _ _ _ _ Hreq), Hon. simpl.
  unfold _online, bind at 1. rewrite resolve_identity_run. fold client.
  rewrite Hfirst. destruct e; try reflexivity. congruence.
Qed.

(** X3: a dataset found on the branch asked for is taken from that branch.
    When the first identity lookup of an online construction returns an
    identity, it is the only identity lookup made, and an Input the
    constructor returns has the branch asked for and that identity. *)
Theorem found_on_requested_branch
  (alias : string) (ob : option string) (caller : string)
  (s s0 : State DF W) (requested : string) (i : DatasetIdentity) (w1 : W) :
  transforms_freeze_cache (config s) = false ->
  _requested_branch ctx ob caller s = (Ok requested, s0) ->
  rest_get_dataset_identity client alias requested (world s0) = (Ok i, w1) ->
  let result := Input__init__ ctx alias ob caller s in
  (exists evs,
     trace (snd result) = trace s0 ++ evs
     /\ filter is_identity_lookup evs = [Rest (GetDatasetIdentity alias requested)])
  /\ (forall inp, fst result = Ok inp ->
        branch inp = requested /\ _dataset_identity inp = i).
Proof.
  intros Hon Hreq Hfirst result. subst result.
  rewrite (init_after_branch ctx _ _ _ _ _ _ Hreq), Hon. simpl.
  pose proof (resolve_identity_run alias requested s0) as Hres.
  fold client in Hres. rewrite Hfirst in Hres.
  rewrite (online_after_resolution _ _ _ _ _ _ Hres).
  cbn [config world cache trace]. fold client.
  destruct (last_transaction_rid i) as [t | ].
  - destruct (rest_get_dataset_schema client (dataset_rid i) (Some t) requested w1)
      as [[[] | e] w2]; [ | destruct e ]; cbv zeta; simpl;
      (split;
       [ eexists; split; [rewrite <- ?app_assoc; reflexivity | reflexivity]
       | intros inp H; inversion H; subst; auto ]).
  - simpl. split.
    + eexists. split; reflexivity.
    + discriminate.
Qed.

(** X4: only the no-schema error turns into file-only mode.  When the
    schema lookup of an online construction raises anything else, the
    constructor raises that exception and returns no Input. *)
Theorem other_schema_errors_propagate
  (alias : string) (ob : option string) (caller : string)
  (s s0 s1 : State DF W) (requested b : string) (i : DatasetIdentity)
  (t : string) (e : Exception) (w2 : W) :
  transforms_freeze_cache (config s) = false ->
  _requested_branch ctx ob caller s = (Ok requested, s0) ->
  _resolve_identity ctx alias requested s0 = (Ok (i, b), s1) ->
  last_transaction_rid i = Some t ->
  rest_get_dataset_schema client (dataset_rid i) (Some t) b (world s1) = (Raise e, w2) ->
  e <> DatasetHasNoSchemaError ->
  Input__init__ ctx alias ob caller s
  = (Raise e,
     {| config := config s1; world := w2; cache := cache s1;
        trace := trace s1 ++ [Rest (GetDatasetSchema (dataset_rid i) (Some t) b)] |}).
Proof.
  intros Hon Hreq Hres Ht Hs Hne.
  rewrite (init_after_branch ctx _ _ _ _ _ _ Hreq), Hon. simpl.
  rewrite (online_after_resolution _ _ _ _ _ _ Hres). fold client.
  rewrite Ht, Hs. destruct e; try reflexivity. congruence.
Qed.

(** X7: every Input constructed online is one of a dataset with a
    transaction: if the constructor returns while transforms_freeze_cache
    is off, the identity it stored has a last_transaction_rid. *)
Theorem online_input_has_a_transaction
  (alias : string) (ob : option string) (caller : string)
  (s s' : State DF W) (inp : Input DF) :
  transforms_freeze_cache (config s) = false ->
  Input__init__ ctx alias ob caller s = (Ok inp, s') ->
  last_transaction_rid (_dataset_identity inp) <> None.
Proof.
  intros Hon H.
  destruct (requested_branch_runs ctx ob caller s) as (r0 & evs0 & E & _).
  destruct r0 as [requested | e0];
    [ | rewrite (init_branch_error _ _ _ _ _ _ E) in H; discriminate].
  rewrite (init_after_branch ctx _ _ _ _ _ _ E), Hon in H. simpl in H.
  destruct (_online ctx alias requested _) as [r s1] eqn:Hrun.
  destruct (online_events _ _ _ _ _ Hrun) as (_ & _ & Hi).
  destruct r as [[[retrievable i] b] | e]; simpl in H; inversion H; subst.
  simpl. exact (Hi _ _ _ eq_refl).
Qed.

(** *** dataframe() *)

Lemma memoised_dataframe (self : Input DF) (s : State DF W) (df : DF) :
  _spark_df self = Some df ->
  dataframe ctx self s = (Ok (Some df, self), s).
Proof.
  intro H. unfold dataframe. rewrite H, andb_false_r. reflexivity.
Qed.

Lemma memoised_step (o : Op) (self : Input DF) (s : State DF W) (df : DF) :
  _spark_df self = Some df ->
  _spark_df (fst (step ctx o self s)) = Some df.
Proof.
  intro H. destruct o; simpl; try exact H.
  - unfold keep_self. rewrite (memoised_dataframe _ _ _ H). exact H.
  - unfold keep_self, get_local_path_to_dataset. plumbing. simpl.
    destruct (negb (transforms_freeze_cache (config s))); simpl.
    + destruct (cfc_fetch_dataset _ _ _ _ _) as [[[p | e] w'] c']; exact H.
    + destruct (cache_get_path_to_local_dataset _ _ _ _) as [[[p | e] w'] c']; exact H.
Qed.

(** X8: the dataframe is loaded once.  After a call of dataframe() has
    returned a dataframe, every later call on that Input, whatever was
    called on it or happened to configuration, world and cache in between,
    returns the same dataframe and does nothing else: no collaborator is
    called, nothing is logged, the state is left as found. *)
Theorem dataframe_is_loaded_once
  (self self' : Input DF) (s s' : State DF W) (df : DF) :
  dataframe ctx self s = (Ok (Some df, self'), s') ->
  forall (ops : list Op) (s2 : State DF W),
    let (self2, s3) := run ctx ops self' s2 in
    dataframe ctx self2 s3 = (Ok (Some df, self2), s3).
Proof.
  intro H.
  assert (Hm : _spark_df self' = Some df).
  { unfold dataframe in H.
    destruct (_is_spark_df_retrievable self && _).
    - plumbing. simpl in H.
      destruct (negb (transforms_freeze_cache (config s))); simpl in H.
      + destruct (_retrieve_spark_df ctx _ _ s) as [[d | e] s1]; inversion H; reflexivity.
      + destruct (cache_lookup _ (cache s)); inversion H; reflexivity.
    - unfold ret in H. inversion H; subst. congruence. }
  clear H. intros ops. revert self' Hm.
  induction ops as [ | o ops IH ]; intros self' Hm s2; simpl.
  - apply memoised_dataframe. exact Hm.
  - pose proof (memoised_step o self' s2 df Hm) as Hstep.
    destruct (step ctx o self' s2) as [self1 s1]. simpl in Hstep.
    apply IH. exact Hstep.
Qed.

(** X9: offline, dataframe() on an Input with a schema is a read of the
    cache mapping and nothing more: it returns (and memoises) the dataframe
    stored under the identity, and raises KeyError when there is none. *)
Theorem offline_dataframe_reads_the_cache (self : Input DF) (s : State DF W) :
  transforms_freeze_cache (config s) = true ->
  _is_spark_df_retrievable self = true ->
  _spark_df self = None ->
  dataframe ctx self s
  = (match cache_lookup (_dataset_identity self) (cache s) with
     | Some spark_df =>
         Ok (Some spark_df,
             {| _spark_df := Some spark_df; _is_spark_df_retrievable := true;
                _dataset_identity := _dataset_identity self; branch := branch self |})
     | None => Raise KeyError
     end,
     logged [Cached (CacheGetItem (_dataset_identity self))] s).
Proof.
  intros Hoff Hr Hn. unfold dataframe. rewrite Hr, Hn. plumbing. simpl.
  rewrite Hoff. simpl.
  destruct (cache_lookup (_dataset_identity self) (cache s)); simpl; rewrite ?Hr;
    reflexivity.
Qed.

Lemma cache_lookup_store_other (k k' : DatasetIdentity) (v : DF) (c : Cache DF) :
  k' <> k -> cache_lookup k' (cache_store k v c) = cache_lookup k' c.
Proof.
  intro Hne.
  assert (Hk : identity_eqb k' k = false).
  { unfold identity_eqb. destruct (DatasetIdentity_eq_dec k' k); congruence. }
  induction c as [ | [k0 v0] c IH ]; simpl.
  - rewrite Hk. reflexivity.
  - destruct (identity_eqb k k0) eqn:E; simpl.
    + unfold identity_eqb in E. destruct (DatasetIdentity_eq_dec k k0); [ | discriminate].
      subst k0. rewrite Hk. reflexivity.
    + destruct (identity_eqb k' k0); [reflexivity | exact IH].
Qed.

(** What dataframe() does when it goes the sampling way. *)
Lemma sampled_dataframe_run (self : Input DF) (s s1 : State DF W) (n : Z) :
  transforms_freeze_cache (config s) = false ->
  _is_spark_df_retrievable self = true ->
  _spark_df self = None ->
  contains (_dataset_identity self) (cache_keys (cache s)) = false ->
  (LOGGER_debug (LogCachingData (_dataset_identity self) (branch self)) ;;;
   _size_in_bytes ctx (_dataset_identity self)) (logged [Cached CacheKeys] s)
  = (Ok n, s1) ->
  transforms_force_full_dataset_download (config s)
  || Qltb (mega_bytes n) (transforms_sql_dataset_size_threshold (config s)) = false ->
  let i := _dataset_identity self in
  let query :=
    sampled_sql (dataset_path i) (transforms_sql_sample_select_random (config s))
      (transforms_sql_sample_row_limit (config s)) in
  let tr :=
    (trace s1 ++ [Debug (LogDatasetSize (round_ndigits2 (mega_bytes n)))])
    ++ [Warn (WarnRetrievingSubset (transforms_sql_sample_row_limit (config s))
                (last_item (split_on "/" (dataset_path i))) (dataset_rid i)
                (round_ndigits2 (mega_bytes n))
                (transforms_sql_dataset_size_threshold (config s)));
        Debug (LogExecutingQuery query (branch self));
        Rest (QueryFoundrySql query (branch self) SPARK)] in
  dataframe ctx self s
  = match rest_query_foundry_sql client query (branch self) SPARK (world s1) with
    | (Ok spark_df, w') =>
        (Ok (Some spark_df,
             {| _spark_df := Some spark_df; _is_spark_df_retrievable := true;
                _dataset_identity := i; branch := branch self |}),
         {| config := config s; world := w';
            cache := cache_store i spark_df (cache s);
            trace := tr ++ [Cached (CacheSetItem i)] |})
    | (Raise e, w') =>
        (Raise e, {| config := config s; world := w'; cache := cache s; trace := tr |})
    end.
Proof.
  intros Hon Hr Hn Hmiss H Hsampled i query tr.
  rewrite (dataframe_online ctx _ _ Hon Hr Hn).
  rewrite (retrieve_spark_df_miss ctx _ _ _ Hmiss).
  rewrite (retrieve_uncached_run ctx _ _ _ _ _ H).
  cbv zeta. cbn [logged config world cache trace]. rewrite Hsampled.
  fold i query. fold client.
  destruct (rest_query_foundry_sql client query (branch self) SPARK (world s1))
    as [[df | e] w']; rewrite ?Hr; reflexivity.
Qed.

(** X10: a sample is fetched once for all Inputs.  After dataframe() on an
    online Input has fetched a sample, dataframe() on any other online
    Input of the same dataset identity that has a schema and nothing
    memoised (whatever its branch) returns that very dataframe from the
    cache: three events, none of them a call on the REST client or a
    download. *)
Theorem sample_is_shared_through_the_cache
  (self other : Input DF) (s s1 : State DF W) (n : Z) (spark_df : DF) (w' : W) :
  transforms_freeze_cache (config s) = false ->
  _is_spark_df_retrievable self = true ->
  _spark_df self = None ->
  contains (_dataset_identity self) (cache_keys (cache s)) = false ->
  (LOGGER_debug (LogCachingData (_dataset_identity self) (branch self)) ;;;
   _size_in_bytes ctx (_dataset_identity self)) (logged [Cached CacheKeys] s)
  = (Ok n, s1) ->
  transforms_force_full_dataset_download (config s)
  || Qltb (mega_bytes n) (transforms_sql_dataset_size_threshold (config s)) = false ->
  rest_query_foundry_sql client
    (sampled_sql (dataset_path (_dataset_identity self))
       (transforms_sql_sample_select_random (config s))
       (transforms_sql_sample_row_limit (config s)))
    (branch self) SPARK (world s1) = (Ok spark_df, w') ->
  _dataset_identity other = _dataset_identity self ->
  _is_spark_df_retrievable other = true ->
  _spark_df other = None ->
  let s' := snd (dataframe ctx self s) in
  dataframe ctx other s'
  = (Ok (Some spark_df,
         {| _spark_df := Some spark_df; _is_spark_df_retrievable := true;
            _dataset_identity := _dataset_identity self; branch := branch other |}),
     logged [Cached CacheKeys;
             Debug (LogReturningFromCache (_dataset_identity self) (branch other));
             Cached (CacheGetItem (_dataset_identity self))] s').
Proof.
  intros Hon Hr Hn Hmiss H Hsampled Hquery Hsame Hr' Hn' s'.
  subst s'. rewrite (sampled_dataframe_run _ _ _ _ Hon Hr Hn Hmiss H Hsampled).
  cbv zeta. rewrite Hquery. cbn [snd].
  rewrite dataframe_online; [ | exact Hon | exact Hr' | exact Hn'].
  rewrite Hsame, Hr'.
  rewrite (retrieve_spark_df_hit ctx _ _ _ spark_df); [reflexivity | ].
  apply cache_lookup_store.
Qed.

(** X11: a sample that could not be fetched leaves no trace in the cache.
    When the sampling query raises, dataframe() raises the same exception,
    the cache is as it was and nothing was written to it; the warning about
    the subset has been emitted all the same, since it precedes the
    query. *)
Theorem failed_sample_is_not_stored
  (self : Input DF) (s s1 : State DF W) (n : Z) (e : Exception) (w' : W) :
  transforms_freeze_cache (config s) = false ->
  _is_spark_df_retrievable self = true ->
  _spark_df self = None ->
  contains (_dataset_identity self) (cache_keys (cache s)) = false ->
  (LOGGER_debug (LogCachingData (_dataset_identity self) (branch self)) ;;;
   _size_in_bytes ctx (_dataset_identity self)) (logged [Cached CacheKeys] s)
  = (Ok n, s1) ->
  transforms_force_full_dataset_download (config s)
  || Qltb (mega_bytes n) (transforms_sql_dataset_size_threshold (config s)) = false ->
  rest_query_foundry_sql client
    (sampled_sql (dataset_path (_dataset_identity self))
       (transforms_sql_sample_select_random (config s))
       (transforms_sql_sample_row_limit (config s)))
    (branch self) SPARK (world s1) = (Raise e, w') ->
  let result := dataframe ctx self s in
  fst result = Raise e
  /\ cache (snd result) = cache s
  /\ exists evs,
       trace (snd result) = trace s ++ evs
       /\ existsb is_cache_store evs = false
       /\ existsb is_warning evs = true.
Proof.
  intros Hon Hr Hn Hmiss H Hsampled Hquery result.
  subst result. rewrite (sampled_dataframe_run _ _ _ _ Hon Hr Hn Hmiss H Hsampled).
  cbv zeta. rewrite Hquery. cbn [fst snd cache trace].
  destruct (size_step_keeps ctx _ _ _ _ _ H) as (_ & _ & evs0 & Ht & _ & _ & _ & Hst).
  cbn [logged trace] in Ht.
  refine (conj eq_refl (conj eq_refl _)).
  eexists. split; [rewrite Ht, <- !app_assoc; reflexivity | ].
  rewrite !existsb_app, Hst. simpl. split; [reflexivity | ].
  apply orb_true_r.
Qed.

(** X18: fetching a sample changes one entry of the cache.  After a
    successful sampling dataframe(), the cache holds the sample under the
    Input's identity and, under every other identity, what it held
    before. *)
Theorem sample_changes_one_cache_entry
  (self : Input DF) (s s1 : State DF W) (n : Z) (spark_df : DF) (w' : W) :
  transforms_freeze_cache (config s) = false ->
  _is_spark_df_retrievable self = true ->
  _spark_df self = None ->
  contains (_dataset_identity self) (cache_keys (cache s)) = false ->
  (LOGGER_debug (LogCachingData (_dataset_identity self) (branch self)) ;;;
   _size_in_bytes ctx (_dataset_identity self)) (logged [Cached CacheKeys] s)
  = (Ok n, s1) ->
  transforms_force_full_dataset_download (config s)
  || Qltb (mega_bytes n) (transforms_sql_dataset_size_threshold (config s)) = false ->
  rest_query_foundry_sql client
    (sampled_sql (dataset_path (_dataset_identity self))
       (transforms_sql_sample_select_random (config s))
       (transforms_sql_sample_row_limit (config s)))
    (branch self) SPARK (world s1) = (Ok spark_df, w') ->
  forall k : DatasetIdentity,
    cache_lookup k (cache (snd (dataframe ctx self s)))
    = if identity_eqb k (_dataset_identity self) then Some spark_df
      else cache_lookup k (cache s).
Proof.
  intros Hon Hr Hn Hmiss H Hsampled Hquery k.
  rewrite (sampled_dataframe_run _ _ _ _ Hon Hr Hn Hmiss H Hsampled).
  cbv zeta. rewrite Hquery. cbn [snd cache].
  unfold identity_eqb at 1.
  destruct (DatasetIdentity_eq_dec k (_dataset_identity self)) as [-> | Hne].
  - apply cache_lookup_store.
  - apply cache_lookup_store_other. exact Hne.
Qed.

(** X15: the warning names the dataset by the last segment of its path.
    When the uncached retrieval goes the sampling way for a dataset whose
    path is <folder>/<name>, <name> free of slashes, the one warning
    emitted carries the row limit, <name>, the dataset rid, the size
    rounded to two digits and the threshold. *)
Theorem warning_names_the_dataset
  (dataset_identity : DatasetIdentity) (b : string) (s s1 : State DF W) (n : Z)
  (folder name : string) :
  (LOGGER_debug (LogCachingData dataset_identity b) ;;;
   _size_in_bytes ctx dataset_identity) s = (Ok n, s1) ->
  transforms_force_full_dataset_download (config s)
  || Qltb (mega_bytes n) (transforms_sql_dataset_size_threshold (config s)) = false ->
  dataset_path dataset_identity = (folder ++ "/" ++ name)%string ->
  existsb (fun c => Ascii.eqb c "/") (list_ascii_of_string name) = false ->
  exists evs,
    trace (snd (_retrieve_from_foundry_and_cache ctx dataset_identity b s))
    = trace s ++ evs
    /\ filter is_warning evs
       = [Warn (WarnRetrievingSubset (transforms_sql_sample_row_limit (config s))
                  name (dataset_rid dataset_identity)
                  (round_ndigits2 (mega_bytes n))
                  (transforms_sql_dataset_size_threshold (config s)))].
Proof.
  intros H Hsampled Hpath Hname.
  destruct (size_step_keeps ctx _ _ _ _ _ H) as (_ & _ & evs0 & Ht & _ & _ & Hw & _).
  apply filter_none in Hw.
  rewrite (retrieve_uncached_run ctx _ _ _ _ _ H). cbv zeta. rewrite Hsampled.
  assert (Hn : last_item (split_on "/" (dataset_path dataset_identity)) = name).
  { rewrite Hpath.
    change (folder ++ "/" ++ name)%string with (folder ++ String "/" name)%string.
    rewrite last_split_app, (split_on_plain _ _ Hname). reflexivity. }
  rewrite Hn. fold client.
  destruct (rest_query_foundry_sql client _ b SPARK (world s1)) as [[df | e] w'];
    cbn [snd trace];
    (eexists; split; [rewrite Ht, <- !app_assoc; reflexivity | ]);
    rewrite !filter_app, Hw; reflexivity.
Qed.

(** *** The size and the threshold *)


(** X12: when the size of the dataset cannot be established, nothing is
    retrieved.  If reading the size raises (the statistics call of a view
    fails, or the identity has no last_transaction, which is a TypeError),
    the uncached retrieval raises that exception with the state the failed
    step left: no load_dataset, no query, no warning, no write to the
    cache. *)
Theorem unknown_size_aborts_retrieval
  (dataset_identity : DatasetIdentity) (b : string) (s s1 : State DF W) (e : Exception) :
  (LOGGER_debug (LogCachingData dataset_identity b) ;;;
   _size_in_bytes ctx dataset_identity) s = (Raise e, s1) ->
  _retrieve_from_foundry_and_cache ctx dataset_identity b s = (Raise e, s1)
  /\ cache s1 = cache s
  /\ (exists evs,
        trace s1 = trace s ++ evs
        /\ existsb is_load_dataset evs = false
        /\ existsb is_query evs = false
        /\ existsb is_warning evs = false
        /\ existsb is_cache_store evs = false)
  /\ (last_transaction dataset_identity = None -> e = TypeError).
Proof.
  intro H.
  destruct (size_step_keeps ctx _ _ _ _ _ H) as (_ & Hk & Hev).
  refine (conj _ (conj Hk (conj Hev _))).
  - unfold _retrieve_from_foundry_and_cache.
    unfold bind at 1 in H. unfold bind at 1.
    destruct (LOGGER_debug (LogCachingData dataset_identity b) s) as [[[] | e0] s0].
    + unfold bind at 1. rewrite H. reflexivity.
    + inversion H. reflexivity.
  - intro Hnone. unfold _size_in_bytes in H. rewrite Hnone in H.
    plumbing. simpl in H. inversion H. reflexivity.
Qed.



(** *** get_local_path_to_dataset() *)

(** X14: get_local_path_to_dataset() needs no schema and no dataframe.  It
    makes exactly one call, on the cached client (_fetch_dataset with the
    identity and the branch online, get_path_to_local_dataset with the
    identity offline), never one on the REST client; it hands back the
    Input unchanged; and two Inputs with the same identity and branch get
    the same outcome, whatever their schema flag and memoised dataframe. *)
Theorem local_path_ignores_the_dataframe (self other : Input DF) (s : State DF W) :
  _dataset_identity other = _dataset_identity self ->
  branch other = branch self ->
  let result := get_local_path_to_dataset ctx self s in
  trace (snd result)
  = trace s
      ++ [Cached (if transforms_freeze_cache (config s)
                  then CacheGetPathToLocalDataset (_dataset_identity self)
                  else FetchDataset (_dataset_identity self) (branch self))]
  /\ (forall path self', fst result = Ok (path, self') -> self' = self)
  /\ snd (get_local_path_to_dataset ctx other s) = snd result
  /\ match fst result, fst (get_local_path_to_dataset ctx other s) with
     | Ok (path, _), Ok (path', _) => path = path'
     | Raise e, Raise e' => e = e'
     | _, _ => False
     end.
Proof.
  intros Hi Hb result. subst result.
  unfold get_local_path_to_dataset. plumbing. simpl. rewrite Hi, Hb.
  destruct (transforms_freeze_cache (config s)); simpl.
  - destruct (cache_get_path_to_local_dataset _ _ _ _) as [[[p | e] w'] c']; simpl;
      repeat split; intros ? ? H; inversion H; reflexivity.
  - destruct (cfc_fetch_dataset _ _ _ _ _) as [[[p | e] w'] c']; simpl;
      repeat split; intros ? ? H; inversion H; reflexivity.
Qed.

End MoreDatasetFacts.

(** ** The further facts at work *)

Import Outage.

(** X1 at work: an online construction. *)
Lemma construction_retrieves_nothing_run :
  let result :=
    Input__init__ (context (sales MiB) true) "/Global/data/sales" (Some "feature")
      "transform.py" online in
  transforms_freeze_cache (config online) = false
  /\ cache (snd result) = cache online
  /\ exists evs,
       trace (snd result) = trace online ++ evs
       /\ existsb is_data_retrieval evs = false
       /\ existsb is_cache_store evs = false.
Proof.
  destruct (construction_retrieves_nothing (context (sales MiB) true)
              "/Global/data/sales" (Some "feature") "transform.py" online)
    as (Hev & _ & Hcache).
  refine (conj eq_refl (conj (Hcache eq_refl) Hev)).
Defined.

(** X2 at work: the platform cannot be reached. *)
Lemma other_lookup_errors_are_not_retried_run :
  let ctx := no_connection (sales MiB) in
  let s0 := logged [Debug (LogInputInstantiated "transform.py")] online in
  transforms_freeze_cache (config online) = false
  /\ _requested_branch ctx (Some "feature") "transform.py" online = (Ok "feature", s0)
  /\ rest_get_dataset_identity (foundry_rest_client ctx) "/Global/data/sales" "feature"
       (world s0) = (Raise (OtherError "ConnectionError"), 1%nat)
  /\ OtherError "ConnectionError" <> BranchNotFoundError
  /\ Input__init__ ctx "/Global/data/sales" (Some "feature") "transform.py" online
     = (Raise (OtherError "ConnectionError"),
        {| config := config online; world := 1%nat; cache := [];
           trace := [Debug (LogInputInstantiated "transform.py");
                     Rest (GetDatasetIdentity "/Global/data/sales" "feature")] |}).
Proof.
  assert (Hne : OtherError "ConnectionError" <> BranchNotFoundError) by discriminate.
  refine (conj eq_refl (conj eq_refl (conj eq_refl (conj Hne _)))).
  exact (other_lookup_errors_are_not_retried (no_connection (sales MiB))
           "/Global/data/sales" (Some "feature") "transform.py" online
           (logged [Debug (LogInputInstantiated "transform.py")] online)
           "feature" (OtherError "ConnectionError") 1%nat
           eq_refl eq_refl eq_refl Hne).
Defined.

(** X3 at work: the dataset is asked for on master, where it is. *)
Lemma found_on_requested_branch_run :
  let ctx := context (sales MiB) true in
  let s0 := logged [Debug (LogInputInstantiated "transform.py")] online in
  let result :=
    Input__init__ ctx "/Global/data/sales" (Some "master") "transform.py" online in
  transforms_freeze_cache (config online) = false
  /\ _requested_branch ctx (Some "master") "transform.py" online = (Ok "master", s0)
  /\ rest_get_dataset_identity (foundry_rest_client ctx) "/Global/data/sales" "master"
       (world s0) = (Ok (sales MiB), 1%nat)
  /\ fst result = Ok (an_input MiB)
  /\ branch (an_input MiB) = "master"
  /\ _dataset_identity (an_input MiB) = sales MiB.
Proof.
  refine (conj eq_refl (conj eq_refl (conj eq_refl (conj eq_refl _)))).
  exact (proj2 (found_on_requested_branch (context (sales MiB) true)
                  "/Global/data/sales" (Some "master") "transform.py" online
                  (logged [Debug (LogInputInstantiated "transform.py")] online)
                  "master" (sales MiB) 1%nat eq_refl eq_refl eq_refl)
           (an_input MiB) eq_refl).
Defined.

(** X4 at work: the schema service is down. *)
Lemma other_schema_errors_propagate_run :
  let ctx := schema_outage (sales MiB) in
  let s0 := logged [Debug (LogInputInstantiated "transform.py")] online in
  let s1 :=
    {| config := config online; world := 1%nat; cache := [];
       trace := [Debug (LogInputInstantiated "transform.py");
                 Rest (GetDatasetIdentity "/Global/data/sales" "master")] |} in
  transforms_freeze_cache (config online) = false
  /\ _requested_branch ctx (Some "master") "transform.py" online = (Ok "master", s0)
  /\ _resolve_identity ctx "/Global/data/sales" "master" s0
     = (Ok (sales MiB, "master"), s1)
  /\ fst (Input__init__ ctx "/Global/data/sales" (Some "master") "transform.py" online)
     = Raise (OtherError "HTTPError").
Proof.
  refine (conj eq_refl (conj eq_refl (conj eq_refl _))).
  assert (Hne : OtherError "HTTPError" <> DatasetHasNoSchemaError) by discriminate.
  rewrite (other_schema_errors_propagate (schema_outage (sales MiB))
             "/Global/data/sales" (Some "master") "transform.py" online _ _
             "master" "master" (sales MiB) "ri.foundry.main.transaction.7"
             (OtherError "HTTPError") 2%nat
             eq_refl eq_refl eq_refl eq_refl eq_refl Hne).
  reflexivity.
Defined.


(** X6 at work: the HEAD file cannot be opened.  Without a branch the
    constructor raises; with one it builds the Input an ordinary checkout
    gives. *)
Lemma unreadable_checkout_stops_construction_run :
  let ctx := unreadable_head (sales MiB) in
  read_if_file ctx "/home/dev/project/.git/HEAD" (world online)
  = Raise (OtherError "PermissionError")
  /\ Input__init__ ctx "/Global/data/sales" None "transform.py" online
     = (Raise (OtherError "PermissionError"),
        logged [Debug (LogInputInstantiated "transform.py")] online)
  /\ Input__init__ (context (sales MiB) true) "/Global/data/sales" (Some "master")
       "transform.py" online
     = Input__init__ ctx "/Global/data/sales" (Some "master") "transform.py" online
  /\ fst (Input__init__ ctx "/Global/data/sales" (Some "master") "transform.py" online)
     = Ok (an_input MiB).
Proof.
  split; [reflexivity | ].
  destruct (unreadable_checkout_stops_construction (unreadable_head (sales MiB))
              "/Global/data/sales" "transform.py" online) as [Hraise Hskip].
  split.
  - apply Hraise. right. right. exists "/home/dev/project".
    split; [left | ]; reflexivity.
  - split; [ | reflexivity].
    exact (Hskip "master" (context (sales MiB) true) eq_refl eq_refl eq_refl).
Defined.

(** X7 at work. *)
Lemma online_input_has_a_transaction_run :
  let result :=
    Input__init__ (context (sales MiB) true) "/Global/data/sales" (Some "master")
      "transform.py" online in
  transforms_freeze_cache (config online) = false
  /\ fst result = Ok (an_input MiB)
  /\ last_transaction_rid (_dataset_identity (an_input MiB)) <> None.
Proof.
  refine (conj eq_refl (conj eq_refl _)).
  exact (online_input_has_a_transaction (context (sales MiB) true)
           "/Global/data/sales" (Some "master") "transform.py" online _ (an_input MiB)
           eq_refl eq_refl).
Defined.

(** X8 at work: a full download, then more calls with the configuration
    switched to offline in between. *)
Lemma dataframe_is_loaded_once_run :
  let ctx := context (sales MiB) true in
  let self' :=
    {| _spark_df := Some "all rows"; _is_spark_df_retrievable := true;
       _dataset_identity := sales MiB; branch := "master" |} in
  let ops := [OpGetLocalPathToDataset; Outside (fun _ => offline); OpDataframe] in
  fst (dataframe ctx (an_input MiB) online) = Ok (Some "all rows", self')
  /\ fst (dataframe ctx (fst (run ctx ops self' online)) (snd (run ctx ops self' online)))
     = Ok (Some "all rows", fst (run ctx ops self' online)).
Proof.
  split; [reflexivity | ].
  pose proof (dataframe_is_loaded_once (context (sales MiB) true) (an_input MiB)
                {| _spark_df := Some "all rows"; _is_spark_df_retrievable := true;
                   _dataset_identity := sales MiB; branch := "master" |}
                online _ "all rows" eq_refl
                [OpGetLocalPathToDataset; Outside (fun _ => offline); OpDataframe]
                online) as H.
  destruct (run _ _ _ online) as [self2 s3]. simpl. rewrite H. reflexivity.
Defined.

(** X9 at work: offline with nothing in the cache. *)
Lemma offline_dataframe_reads_the_cache_run :
  transforms_freeze_cache (config offline) = true
  /\ _is_spark_df_retrievable (an_input MiB) = true
  /\ _spark_df (an_input MiB) = None
  /\ dataframe (context (sales MiB) true) (an_input MiB) offline
     = (Raise KeyError, logged [Cached (CacheGetItem (sales MiB))] offline).
Proof.
  refine (conj eq_refl (conj eq_refl (conj eq_refl _))).
  exact (offline_dataframe_reads_the_cache (context (sales MiB) true) (an_input MiB)
           offline eq_refl eq_refl eq_refl).
Defined.

(** X10 at work: the sample of one Input serves another, on another
    branch. *)
Lemma sample_is_shared_through_the_cache_run :
  let dataset_identity := sales (600 * MiB) in
  let ctx := context dataset_identity true in
  let other :=
    {| _spark_df := None; _is_spark_df_retrievable := true;
       _dataset_identity := dataset_identity; branch := "feature" |} in
  let s' := snd (dataframe ctx (an_input (600 * MiB)) online) in
  transforms_force_full_dataset_download (config online)
  || Qltb (mega_bytes (600 * MiB))
       (transforms_sql_dataset_size_threshold (config online)) = false
  /\ fst (dataframe ctx other s')
     = Ok (Some "SELECT * FROM `/Global/data/sales` LIMIT 5000",
           {| _spark_df := Some "SELECT * FROM `/Global/data/sales` LIMIT 5000";
              _is_spark_df_retrievable := true;
              _dataset_identity := dataset_identity; branch := "feature" |}).
Proof.
  split; [reflexivity | ].
  rewrite (sample_is_shared_through_the_cache (context (sales (600 * MiB)) true)
             (an_input (600 * MiB))
             {| _spark_df := None; _is_spark_df_retrievable := true;
                _dataset_identity := sales (600 * MiB); branch := "feature" |}
             online
             (logged [Cached CacheKeys;
                      Debug (LogCachingData (sales (600 * MiB)) "master")] online)
             (600 * MiB)%Z "SELECT * FROM `/Global/data/sales` LIMIT 5000" 1%nat
             eq_refl eq_refl eq_refl eq_refl eq_refl eq_refl eq_refl
             eq_refl eq_refl eq_refl).
  reflexivity.
Defined.

(** X11 at work: the SQL service is down. *)
Lemma failed_sample_is_not_stored_run :
  let dataset_identity := sales (600 * MiB) in
  let result := dataframe (query_outage dataset_identity) (an_input (600 * MiB)) online in
  contains dataset_identity (cache_keys (cache online)) = false
  /\ fst result = Raise (OtherError "HTTPError")
  /\ cache (snd result) = cache online.
Proof.
  split; [reflexivity | ].
  destruct (failed_sample_is_not_stored (query_outage (sales (600 * MiB)))
              (an_input (600 * MiB)) online
              (logged [Cached CacheKeys;
                       Debug (LogCachingData (sales (600 * MiB)) "master")] online)
              (600 * MiB)%Z (OtherError "HTTPError") 1%nat
              eq_refl eq_refl eq_refl eq_refl eq_refl eq_refl eq_refl)
    as (Hraise & Hcache & _).
  exact (conj Hraise Hcache).
Defined.

(** X12 at work: an identity without a last transaction. *)
Lemma unknown_size_aborts_retrieval_run :
  let s1 := logged [Debug (LogCachingData never_written "master")] online in
  bind (LOGGER_debug (LogCachingData never_written "master"))
    (fun _ => _size_in_bytes (context never_written true) never_written) online
  = (Raise TypeError, s1)
  /\ _retrieve_from_foundry_and_cache (context never_written true) never_written
       "master" online = (Raise TypeError, s1).
Proof.
  split; [reflexivity | ].
  exact (proj1 (unknown_size_aborts_retrieval (context never_written true)
                  never_written "master" online
                  (logged [Debug (LogCachingData never_written "master")] online)
                  TypeError eq_refl)).
Defined.



(** X14 at work: an Input with a schema and a file-only one. *)
Lemma local_path_ignores_the_dataframe_run :
  let ctx := context (sales MiB) true in
  let files_only :=
    {| _spark_df := None; _is_spark_df_retrievable := false;
       _dataset_identity := sales MiB; branch := "master" |} in
  _dataset_identity files_only = _dataset_identity (an_input MiB)
  /\ branch files_only = branch (an_input MiB)
  /\ snd (get_local_path_to_dataset ctx files_only online)
     = snd (get_local_path_to_dataset ctx (an_input MiB) online)
  /\ trace (snd (get_local_path_to_dataset ctx (an_input MiB) online))
     = [Cached (FetchDataset (sales MiB) "master")].
Proof.
  refine (conj eq_refl (conj eq_refl _)).
  destruct (local_path_ignores_the_dataframe (context (sales MiB) true) (an_input MiB)
              {| _spark_df := None; _is_spark_df_retrievable := false;
                 _dataset_identity := sales MiB; branch := "master" |}
              online eq_refl eq_refl)
    as (Htrace & _ & Hsame & _).
  exact (conj Hsame Htrace).
Defined.

(** X15 at work: the warning names the dataset "sales". *)
Lemma warning_names_the_dataset_run :
  let dataset_identity := sales (600 * MiB) in
  let ctx := context dataset_identity true in
  dataset_path dataset_identity = ("/Global/data" ++ "/" ++ "sales")%string
  /\ exists evs,
       trace (snd (_retrieve_from_foundry_and_cache ctx dataset_identity "master" online))
       = trace online ++ evs
       /\ filter is_warning evs
          = [Warn (WarnRetrievingSubset 5000 "sales" "ri.foundry.main.dataset.1"
                     (round_ndigits2 (mega_bytes (600 * MiB))) 500)].
Proof.
  split; [reflexivity | ].
  exact (warning_names_the_dataset (context (sales (600 * MiB)) true)
           (sales (600 * MiB)) "master" online
           (logged [Debug (LogCachingData (sales (600 * MiB)) "master")] online)
           (600 * MiB)%Z "/Global/data" "sales"
           eq_refl eq_refl eq_refl eq_refl).
Defined.

(** X18 at work: another dataset's entry survives the sampling. *)
Lemma sample_changes_one_cache_entry_run :
  let dataset_identity := sales (600 * MiB) in
  let s :=
    {| config := settings false false 500; world := 0%nat;
       cache := [(never_written, "left alone")]; trace := [] |} in
  let result := dataframe (context dataset_identity true) (an_input (600 * MiB)) s in
  contains dataset_identity (cache_keys (cache s)) = false
  /\ cache_lookup never_written (cache (snd result)) = Some "left alone"
  /\ cache_lookup dataset_identity (cache (snd result))
     = Some "SELECT * FROM `/Global/data/sales` LIMIT 5000".
Proof.
  split; [reflexivity | ].
  pose proof (sample_changes_one_cache_entry (context (sales (600 * MiB)) true)
                (an_input (600 * MiB))
                {| config := settings false false 500; world := 0%nat;
                   cache := [(never_written, "left alone")]; trace := [] |}
                {| config := settings false false 500; world := 0%nat;
                   cache := [(never_written, "left alone")];
                   trace := [Cached CacheKeys;
                             Debug (LogCachingData (sales (600 * MiB)) "master")] |}
                (600 * MiB)%Z "SELECT * FROM `/Global/data/sales` LIMIT 5000" 1%nat
                eq_refl eq_refl eq_refl eq_refl eq_refl eq_refl eq_refl) as H.
  split.
  - exact (H never_written).
  - exact (H (sales (600 * MiB))).
Defined.
